(* ===== verification/_CoqProject ===== *)
-Q . S2P
Prelude.v
Dom.v
JsString.v
Articles.v
Render.v
Html.v
Search.v
Loader.v
Navigation.v
Slider.v
Theme.v
Menu.v
Contact.v
App.v
