(* ===== verification/Prelude.v ===== *)
(** * A verification development of the News front-end controller

    The program is [src/script.js] (305 lines): one browser script that owns
    four globals ([currentPage], [currentCategory], [currentSlide],
    [articles], lines 21-24) and a set of DOM elements, and reacts to events:
    clicks, a key press, a form submission, a 5 s interval (lines 142-146)
    and the 1 s timeout awaited inside the [async] [fetchNews] (line 178).
    Every listener is modelled as a function on an explicit state; [App]
    composes them into one event-step function of the whole page, and the
    theorems prove what each handler does and the invariants of every run.

    ** Files (in [_CoqProject] order), their modules and the code they model

    - [Prelude] (this file): the scope [news_scope] with [===] (JavaScript's
      strict equality on strings) and [===?] (on a value that may be
      [null]); the tactics [invc], [case_if], [z_cases]; the hint databases
      [news] and [news_rw]; shared lemmas on boolean filters
      ([Array.prototype.filter]) and on [String.append].
    - [Dom]: the exceptions ([js_error]) and outputs ([output]: console,
      [alert], uncaught exceptions) of the page; the type class
      [ClassToggle] with its laws [ClassToggleLaws], the interface of an
      element whose class list may hold [active], and the two steps every
      view switch of the script is made of: [remove_active_all]
      ([forEach(x => x.classList.remove('active'))], lines 80, 98, 124) and
      [add_active_at] ([el.classList.add('active')], throwing on
      [undefined]).  The lemmas [add_active_at_remove_all],
      [active_indices_activate_only] and [active_indices_only] prove once,
      for every instance, that the pair leaves exactly one element active.
    - [JsString] (module [JsString]): [toLowerCase] ([to_lower]), [trim]
      and [includes] on ASCII strings, with [includes_spec] (substring
      decomposition), [to_lower_idem] and [trim_empty_iff].
    - [Articles] (module [Articles]): the article record, the six entries of
      [mockNews] (lines 181-236) and [select_category] (lines 238-243).
    - [Render] (module [Render]): [displayNews] (lines 266-299) to a list of
      symbolic grid nodes.
    - [Html] (module [Html]): the two template literals of [displayNews]
      written out as strings ([no_results_html], [card_template],
      [card_inner]), the date as a parameter
      [toLocaleDateString], and the reference [escape_html] an escaping
      renderer would apply to each interpolated value.
    - [Search] (module [Search]): [searchNews] (lines 256-263) and the two
      search listeners (lines 106-120).
    - [Loader] (module [Loader]): [fetchNews] split at its [await] into
      [fetch_start] and [fetch_resume]; the interface [ArticleSource] of
      the article provider (a [Class]) with the script's instance
      [mock_source]; the specification's loader machine [spec_step] and
      the abstraction [abs_phase] of the page's indicators onto it.
    - [Navigation] (module [Navigation]): the page containers and
      [show_page] (lines 78-83, with [getElementById] as a first-match
      search), and the category buttons with [select_button] (lines 96-100);
      both are [ClassToggle] instances.
    - [Slider] (module [Slider]): [showSlide], the two buttons and the
      interval callback (lines 122-146), with [currentSlide] as a [Z].
    - [Theme] (module [Theme]): the toggle (lines 27-36) and the start-up
      restore (lines 39-43), [localStorage] as a [gmap string string].
    - [Menu] (module [Menu]): the mobile overlay (lines 46-61, 70-74).
    - [Contact] (module [Contact]): the form stub (lines 149-164).
    - [App] (module [App]): the page's [state], its [event]s, [step] (the
      listeners as the script wires them: [navLink_click], [category_click],
      [apply_search], [fetch_timeout], [slider_event], ...), [run] for event
      sequences, [init] for the top level ([init_page]: the globals and
      the theme restore; then the final [fetchNews()] of line 305) from an
      [html] description of the served page, [retryBtn_click] (line 302),
      and two reachability relations: [reachable] (the script's runs, the
      mock provider answering every load) and [reachable_net] (each load
      answered by any provider, resolving or rejecting on its own).  The
      part of [App] that resumes loads is a Section over the
      [ArticleSource] it awaits.

    ** What the theorems show

    - Invariants of every reachable state ([App]): [feed_invariant] (with
      the script's provider: the loading indicator is shown only while a
      load is suspended; with no load suspended, [articles] is the current
      category's selection and the grid shows it or a search over it).
      Whatever the providers answer ([reachable_net]): [net_feed_invariant]
      (indicator only while a load is suspended, never with the error
      panel), [category_invariant] (exactly one
      category button selected, naming [currentCategory]),
      [page_invariant] (exactly one page visible, the current one),
      [slider_invariant], [theme_invariant] (the theme is untouched or
      consistent), [menu_invariant] (scroll locked exactly while the overlay
      is open).  They are proved by [reachable_ind_inv] and
      [reachable_net_ind_inv], induction principles stated once in a
      Section, from per-handler frame
      lemmas ([step_frame], [step_cat_frame], [step_page_frame],
      [step_slider_frame]).  [grid_invariant] is the type of the grid:
      empty, the placeholder alone, or cards only ([Render.grid_wf]).
      [grid_in_category]: once no load is pending, every card shown is of
      an article of the current category's selection (a search never
      shows another category).
    - Refinement: [Loader.loader_refines]: non-overlapping loads implement
      the specification's idle / loading / success / error machine step for
      step: its steps are labelled by the event and constrained by the
      provider's answer (a resolved load must show and render the current
      category's selection of that answer, a rejected one the error
      panel).
    - Functional behaviour of each handler on every branch, errors
      included: [fetch_resume_outcome], [retry_outcome] (the retry button
      with a provider that resolves or rejects), [show_page_exactly_one],
      [show_page_missing_blank], [select_button_exactly_one],
      [displayNews_correct], [search_case_insensitive],
      [search_handlers_spec], [search_twice_from_loaded],
      [navigate_home_reloads], [navLink_click_found] (a link to an
      existing page shows it and closes the menu), [missing_page_blank],
      [menu_ops_ok].
    - Round trips: [slider_prev_next_roundtrip], [theme_toggle_twice],
      [theme_persist_restore] (toggle, reload, restore).
    - Bounds and termination: [slider_ops_preserve], [slider_wraparound]
      (the index stays in [0, heroSlides.length)); [App.loads_complete]
      (from any state, as many [FetchTimeout] events as suspended loads are
      all enabled and settle the feed: no fuel is needed, the run is the
      list of that many events).
    - Category filter: [Articles.select_category_correct].
    - Markup ([Html]): [card_escape_equiv] (the script's card equals the
      escaping renderer's exactly on values free of [&], [<], [>] and
      double quotes) and [card_markup_injection] (every [<] of a feed value
      opens an element of the card).
    - Findings, stated as theorems: [feed_invariant] (the code reads
      [currentCategory] after the [await], so once no load is pending the
      stale result the specification warns about is never shown),
      [overlap_hides_indicator],
      [missing_page_blank], [empty_slider_throws],
      [theme_toggle_twice_fresh], [stale_error_panel] (a rejected load's
      error panel stays over the articles of a later load that resolves),
      [Html.card_markup_injection].
    - Concrete scenarios of the specification, evaluated by [vm_compute]
      on the page [App.demo_html]: [technology_scenario],
      [search_scenarios]; [Contact.contact_submit_spec] for the form.

    ** Modelling choices and assumptions

    - JavaScript strings are Rocq [string]s; [toLowerCase] and [trim] are
      modelled on ASCII (non-ASCII case mappings and Unicode white space
      are not).  [getAttribute] returns [option string] ([None] is [null]),
      rendered as ["null"] by a template literal.
    - An exception that escapes a listener aborts it and keeps the updates
      made before it; it is recorded as an [Uncaught] output.
    - Time is not modelled: the interval and the fetch timeouts are events
      that interleave with user events in any order, which includes every
      real schedule.  The suspended [fetchNews] activations capture nothing,
      so they are counted ([inflight]) rather than queued.
    - The HTML page is not in the repository: it is the input [html]; the
      invariants assume only what they state of it ([html_buttons_ok],
      [html_pages_ok], [html_slides_ok]).  Ids of the form [X-page] are
      assumed to occur on [.page] containers only.
    - Markup is the string the script assigns to [innerHTML]; how the
      browser parses it into elements is not modelled, so the markup
      theorems count the [<] that open elements rather than build a DOM.
    - A remote provider is any [ArticleSource] at each resumed load
      ([reachable_net]); the script's own provider is [mock_source].

    ** Not modelled, and why

    - CSS and layout, and the HTML page itself: not in the repository.
    - The browser's HTML parser: the theorems are about the markup the
      script writes, which is what the code determines.
    - The locale format of [toLocaleDateString]: it is the browser's, not
      the script's, and depends on the viewer's locale and time zone; it is
      a symbolic value in [Render] and a parameter in [Html] (the witness
      uses an en-US formatter).
    - [preventDefault] and the rendering of [window.scrollTo] (a scroll
      field), which change no state the script reads.
    - The NewsAPI request of lines 174-175 is a comment, not code: only
      the behaviour of a provider that resolves or rejects is modelled.
    - Non-ASCII case mappings of [toLowerCase] and Unicode white space of
      [trim]: the strings are ASCII.
*)

From stdpp Require Export base list gmap strings.
From Stdlib Require Export Ascii ZArith Lia.
#[export] Set Warnings "-notation-overridden".

Open Scope string_scope.
Open Scope list_scope.
Declare Scope news_scope.
Delimit Scope news_scope with news.
Open Scope news_scope.

(** JavaScript's [===] on two strings, and on an attribute value that may be
    [null] compared with a string literal. *)
Notation "x === y" := (String.eqb x y) (at level 70, no associativity) : news_scope.
Definition opt_str_eqb (x : option string) (y : string) : bool :=
  match x with Some s => String.eqb s y | None => false end.
Notation "x ===? y" := (opt_str_eqb x y) (at level 70, no associativity) : news_scope.

Create HintDb news discriminated.
Create Rewrite HintDb news_rw.

(** ** Tactics *)

Ltac invc H := inversion H; subst; clear H.

(** Case on the first boolean condition of the goal, keeping its equation. *)
Ltac case_if :=
  match goal with
  | |- context [if ?c then _ else _] =>
      let E := fresh "Eif" in destruct c eqn:E
  end.

(** Split every [Z.leb]/[Z.ltb] test of the goal into its two arithmetic
    cases, innermost first, then close each with [lia]. *)
Ltac no_if t := lazymatch t with context [if _ then _ else _] => fail | _ => idtac end.
Ltac z_cases :=
  repeat match goal with
  | |- context [Z.leb ?a ?b] => no_if a; no_if b; destruct (Z.leb_spec a b)
  | |- context [Z.ltb ?a ?b] => no_if a; no_if b; destruct (Z.ltb_spec a b)
  end; lia.

(** ** Generic lemmas *)

Lemma str_eqb_true (x y : string) : (x === y) = true <-> x = y.
Proof. apply String.eqb_eq. Qed.

Lemma str_eqb_refl (x : string) : (x === x) = true.
Proof. apply String.eqb_refl. Qed.

Lemma opt_str_eqb_true (x : option string) (y : string) :
  (x ===? y) = true <-> x = Some y.
Proof.
  destruct x as [s|]; simpl; [rewrite String.eqb_eq|]; split; congruence.
Qed.

#[export] Hint Rewrite str_eqb_refl : news_rw.

Section BoolFilter.
Context {A : Type}.
Implicit Types (f g : A -> bool) (l : list A).

(** [Array.prototype.filter] keeps exactly the elements its callback
    accepts, in their order. *)
Lemma filter_In_iff f l x : In x (List.filter f l) <-> In x l /\ f x = true.
Proof. apply filter_In. Qed.

Lemma filter_length_le f l : length (List.filter f l) <= length l.
Proof. induction l as [|y l IH]; simpl; [lia|]. destruct (f y); simpl; lia. Qed.

Lemma filter_sublist f l : List.filter f l `sublist_of` l.
Proof.
  induction l as [|y l IH]; simpl; [constructor|].
  destruct (f y); [apply sublist_skip|apply sublist_cons]; exact IH.
Qed.

Lemma filter_ext_in f g l :
  (forall x, In x l -> f x = g x) -> List.filter f l = List.filter g l.
Proof. apply List.filter_ext_in. Qed.

Lemma filter_true_id f l : (forall x, In x l -> f x = true) -> List.filter f l = l.
Proof.
  induction l as [|y l IH]; intros H; simpl; [done|].
  rewrite H by (left; done). f_equal. apply IH. intros x Hx. apply H. by right.
Qed.

Lemma filter_idem f l : List.filter f (List.filter f l) = List.filter f l.
Proof.
  apply filter_true_id. intros x Hx. by apply filter_In in Hx as [_ ?].
Qed.
End BoolFilter.

#[export] Hint Resolve filter_length_le filter_sublist : news.

(** ** Strings

    stdpp declares [String.append] ([+:+]) [simpl never]; its two defining
    equations are the lemmas below. *)

Lemma str_app_nil_l (b : string) : "" +:+ b = b.
Proof. reflexivity. Qed.

Lemma str_app_cons (x : ascii) (a b : string) : String x a +:+ b = String x (a +:+ b).
Proof. reflexivity. Qed.

Lemma str_app_assoc (a b c : string) : (a +:+ b) +:+ c = a +:+ (b +:+ c).
Proof. induction a as [|x a IH]; [done|]. by rewrite !str_app_cons, IH. Qed.

Lemma str_app_nil_r (a : string) : a +:+ "" = a.
Proof. induction a as [|x a IH]; [done|]. by rewrite str_app_cons, IH. Qed.

#[export] Hint Rewrite str_app_nil_l str_app_cons str_app_assoc str_app_nil_r : news_rw.
