(* ===== verification/Dom.v ===== *)
(** * Dom: elements with an [active] class, and the errors of DOM access

    Every view switch of [src/script.js] is the same two steps on a
    [NodeList]: [list.forEach(x => x.classList.remove('active'))] and then
    [target.classList.add('active')] on one element, reached either by an
    index ([heroSlides[index]], line 125), by the listener's own element
    ([btn], line 99) or by [document.getElementById] (line 83).  This file
    states what an element with an [active] class is (the class
    [ClassToggle] and its laws), models the two steps once, and proves the
    "exactly one active element" facts for every instance.  Indexing out of
    range yields [undefined], and reading [classList] of it throws a
    [TypeError]: [add_active_at] returns that error. *)

From S2P Require Import Prelude.
Open Scope string_scope.
Open Scope list_scope.
Open Scope news_scope.

(** The exceptions the script can raise.  Only DOM accesses on [null] or
    [undefined] throw in this program. *)
Inductive js_error :=
| TypeError (msg : string).

#[export] Instance js_error_eq_dec : EqDecision js_error.
Proof. solve_decision. Defined.

Definition err_undefined_classList : js_error :=
  TypeError "Cannot read properties of undefined (reading 'classList')".
Definition err_null_classList : js_error :=
  TypeError "Cannot read properties of null (reading 'classList')".

(** What the page emits outside the DOM: [console.log], [console.error],
    [alert], and the report of an exception no listener caught. *)
Inductive output :=
| ConsoleLog (label : string) (fields : list (string * string))
| ConsoleError (label : string)
| Alert (msg : string)
| Uncaught (e : js_error).

(** ** The interface: an element whose class list may hold [active] *)

Class ClassToggle (E : Type) := {
  has_active : E -> bool;            (** [el.classList.contains('active')] *)
  set_active : bool -> E -> E        (** [add] ([true]) or [remove] ([false]) *)
}.

Class ClassToggleLaws (E : Type) `{ClassToggle E} := {
  has_set_active : forall b e, has_active (set_active b e) = b;
  set_set_active : forall b b' e, set_active b (set_active b' e) = set_active b e
}.

Section Toggle.
Context {E : Type} `{ClassToggleLaws E}.
Implicit Types (l : list E) (e : E).

(** [els.forEach(x => x.classList.remove('active'))] *)
Definition remove_active_all l : list E := map (set_active false) l.

(** [els[i].classList.add('active')]: [undefined.classList] throws. *)
Definition add_active_at (i : nat) l : list E + js_error :=
  match l !! i with
  | Some e => inl (<[i := set_active true e]> l)
  | None => inr err_undefined_classList
  end.

(** The indices of the elements that carry [active]. *)
Fixpoint active_from (n : nat) l : list nat :=
  match l with
  | [] => []
  | e :: l' => if has_active e then n :: active_from (S n) l' else active_from (S n) l'
  end.
Definition active_indices l := active_from 0 l.

(** The reference description of "only element [i] is active". *)
Definition activate_only (i : nat) l : list E :=
  imap (fun j e => set_active (bool_decide (j = i)) e) l.

Lemma length_remove_active_all l : length (remove_active_all l) = length l.
Proof. apply length_map. Qed.

Lemma remove_active_all_idem l :
  remove_active_all (remove_active_all l) = remove_active_all l.
Proof.
  unfold remove_active_all. rewrite map_map.
  apply map_ext. intros e. apply set_set_active.
Qed.

Lemma active_from_none n l :
  (forall e, In e l -> has_active e = false) -> active_from n l = [].
Proof.
  revert n. induction l as [|e l IH]; intros n Hl; simpl; [done|].
  rewrite Hl by (left; done). apply IH. intros e' He'. apply Hl. by right.
Qed.

Lemma active_indices_remove_all l : active_indices (remove_active_all l) = [].
Proof.
  apply active_from_none. intros e He.
  apply in_map_iff in He as (e0 & <- & _). apply has_set_active.
Qed.

Lemma active_from_shift n l :
  active_from (S n) l = map S (active_from n l).
Proof.
  revert n. induction l as [|e l IH]; intros n; simpl; [done|].
  destruct (has_active e); simpl; by rewrite IH.
Qed.

Lemma active_from_only (i n : nat) l :
  i < length l ->
  active_from n (imap (fun j e => set_active (bool_decide (j = i)) e) l) = [n + i].
Proof.
  revert i n. induction l as [|e l IH]; intros i n Hi; simpl in *; [lia|].
  rewrite has_set_active.
  destruct i as [|i]; simpl.
  - rewrite Nat.add_0_r. f_equal. apply active_from_none.
    intros e' He'. apply list_elem_of_In, elem_of_lookup_imap in He'
      as (j & e0 & -> & _). apply has_set_active.
  - rewrite (imap_ext _ (fun j e => set_active (bool_decide (j = i)) e))
      by (intros j x _; simpl; f_equal; apply bool_decide_ext; lia).
    rewrite IH by lia. f_equal; lia.
Qed.

(** ** Clearing all then activating one element *)

Lemma add_active_at_remove_all i l :
  i < length l -> add_active_at i (remove_active_all l) = inl (activate_only i l).
Proof.
  intros Hi. unfold add_active_at, remove_active_all, activate_only.
  destruct (lookup_lt_is_Some_2 l i Hi) as [e He].
  rewrite list_lookup_fmap, He.
  simpl. f_equal.
  apply list_eq. intros j.
  rewrite list_lookup_imap.
  destruct (decide (j = i)) as [->|Hne].
  - rewrite list_lookup_insert_eq by (rewrite length_map; done).
    rewrite He. simpl. rewrite set_set_active. by rewrite bool_decide_true.
  - rewrite list_lookup_insert_ne by congruence. rewrite list_lookup_fmap.
    destruct (l !! j); simpl; [|done]. by rewrite bool_decide_false.
Qed.

Lemma add_active_at_out_of_range i l :
  length l <= i -> add_active_at i l = inr err_undefined_classList.
Proof. intros Hi. unfold add_active_at. by rewrite lookup_ge_None_2. Qed.

Lemma active_indices_activate_only i l :
  i < length l -> active_indices (activate_only i l) = [i].
Proof. intros Hi. apply (active_from_only i 0 l Hi). Qed.

Lemma length_activate_only i l : length (activate_only i l) = length l.
Proof. apply length_imap. Qed.

Lemma elem_active_from n l k :
  In k (active_from n l) <-> exists e, n <= k /\ l !! (k - n) = Some e /\ has_active e = true.
Proof.
  revert n. induction l as [|x l IH]; intros n; simpl.
  - split; [done|]. intros (e & _ & He & _). by rewrite lookup_nil in He.
  - assert ((exists e, n <= k /\ (x :: l) !! (k - n) = Some e /\ has_active e = true) <->
      (k = n /\ has_active x = true) \/ (exists e, S n <= k /\ l !! (k - S n) = Some e /\ has_active e = true))
      as Hsplit.
    { split.
      - intros (e & Hle & Hk & He). destruct (decide (k = n)) as [->|Hne].
        + rewrite Nat.sub_diag in Hk. simpl in Hk. left. split; congruence.
        + right. exists e. replace (k - n) with (S (k - S n)) in Hk by lia. split_and!; [lia|done|done].
      - intros [[-> Hx]|(e & Hle & Hk & He)].
        + exists x. rewrite Nat.sub_diag. done.
        + exists e. replace (k - n) with (S (k - S n)) by lia. split_and!; [lia|done|done]. }
    rewrite Hsplit, <- IH. destruct (has_active x); simpl; naive_solver.
Qed.

(** The meaning of "only element [i] is active": every element is active
    exactly when its index is [i]. *)
Lemma active_indices_only l i :
  active_indices l = [i] -> forall j e, l !! j = Some e -> has_active e = bool_decide (j = i).
Proof.
  intros Hl j e Hj. pose proof (elem_active_from 0 l j) as Hin.
  unfold active_indices in Hl. rewrite Hl, Nat.sub_0_r in Hin. simpl in Hin.
  destruct (has_active e) eqn:He; symmetry.
  - apply bool_decide_eq_true. destruct (proj2 Hin) as [->|[]]; [|done]. exists e. split_and!; [lia|done|done].
  - apply bool_decide_eq_false. intros ->. destruct (proj1 Hin) as (e' & _ & He' & Ha); [by left|]. congruence.
Qed.

Lemma lookup_activate_only i j l :
  activate_only i l !! j = set_active (bool_decide (j = i)) <$> l !! j.
Proof. unfold activate_only. by rewrite list_lookup_imap. Qed.
End Toggle.

#[export] Hint Resolve length_remove_active_all length_activate_only : news.
#[export] Hint Rewrite @length_remove_active_all @length_activate_only : news_rw.

(** ** The plain instance: an element that is nothing but its class flag
    (the hero slides, whose only state the script touches is [active]). *)

#[export] Instance bool_ClassToggle : ClassToggle bool :=
  {| has_active := fun b => b; set_active := fun b _ => b |}.

#[export] Instance bool_ClassToggleLaws : ClassToggleLaws bool.
Proof. split; done. Qed.
