(* ===== verification/JsString.v ===== *)
(** * JsString: the [String.prototype] methods used by the search

    [searchNews] (lines 256-263) and the two search listeners (lines
    106-120) call [trim], [toLowerCase] and [includes].  They are modelled
    here on ASCII strings: [to_lower] maps ['A'..'Z'] to ['a'..'z'] and
    keeps every other character, [is_js_space] is the ASCII part of the
    white-space set [trim] removes (TAB, LF, VT, FF, CR, SPACE), and
    [includes] is the substring test.  Each is characterised by a lemma
    that does not mention its recursion: [includes_spec] (a substring
    decomposition), [to_lower_idem], [trim_empty_iff]. *)

From S2P Require Import Prelude.
Open Scope string_scope.
Open Scope list_scope.
Open Scope news_scope.

Module JsString.

(** ** [toLowerCase] *)

Definition lower_char (c : ascii) : ascii :=
  let n := nat_of_ascii c in
  if Nat.leb 65 n && Nat.leb n 90 then ascii_of_nat (n + 32) else c.

Fixpoint to_lower (s : string) : string :=
  match s with
  | EmptyString => EmptyString
  | String c s' => String (lower_char c) (to_lower s')
  end.

(** ** [trim] *)

Definition is_js_space (c : ascii) : bool :=
  let n := nat_of_ascii c in (Nat.leb 9 n && Nat.leb n 13) || Nat.eqb n 32.

Fixpoint trim_start (s : string) : string :=
  match s with
  | EmptyString => EmptyString
  | String c s' => if is_js_space c then trim_start s' else s
  end.

Fixpoint trim_end (s : string) : string :=
  match s with
  | EmptyString => EmptyString
  | String c s' =>
      match trim_end s' with
      | EmptyString => if is_js_space c then EmptyString else String c EmptyString
      | r => String c r
      end
  end.

Definition trim (s : string) : string := trim_end (trim_start s).

(** The truth value of a string in [if (query)]: the empty string is falsy. *)
Definition truthy (s : string) : bool :=
  match s with EmptyString => false | String _ _ => true end.

(** ** [includes] *)

Fixpoint starts_with (s p : string) {struct p} : bool :=
  match p, s with
  | EmptyString, _ => true
  | String c p', String d s' => Ascii.eqb c d && starts_with s' p'
  | String _ _, EmptyString => false
  end.

Fixpoint includes (s p : string) : bool :=
  starts_with s p ||
  match s with
  | EmptyString => false
  | String _ s' => includes s' p
  end.

(** ** Characterisations *)

Lemma lower_char_idem c : lower_char (lower_char c) = lower_char c.
Proof. destruct c as [[] [] [] [] [] [] [] []]; vm_compute; reflexivity. Qed.

Lemma to_lower_idem s : to_lower (to_lower s) = to_lower s.
Proof. induction s as [|c s IH]; simpl; [done|]. by rewrite lower_char_idem, IH. Qed.

Lemma to_lower_append a b : to_lower (a +:+ b) = to_lower a +:+ to_lower b.
Proof. induction a as [|c a IH]; [done|]. rewrite !str_app_cons. simpl. by rewrite IH. Qed.

Lemma length_to_lower s : String.length (to_lower s) = String.length s.
Proof. induction s as [|c s IH]; simpl; [done|]. by rewrite IH. Qed.

Lemma starts_with_spec s p : starts_with s p = true <-> exists r, s = p +:+ r.
Proof.
  revert s. induction p as [|c p IH]; intros s; simpl.
  - split; [intros _; by exists s|intros _; done].
  - destruct s as [|d s]; simpl.
    + split; [done|]. intros [r Hr]. discriminate.
    + rewrite andb_true_iff, Ascii.eqb_eq, IH. split.
      * intros [-> [r ->]]. by exists r.
      * intros [r Hr]. injection Hr as -> ->. eauto.
Qed.

Lemma includes_spec s p : includes s p = true <-> exists a b, s = a +:+ p +:+ b.
Proof.
  induction s as [|d s IH]; simpl; rewrite orb_true_iff, starts_with_spec.
  - split.
    + intros [[r Hr]|Hf]; [exists "", r; exact Hr|discriminate].
    + intros (a & b & Hab). left. destruct a; [by exists b|discriminate].
  - rewrite IH. split.
    + intros [[r Hr]|(a & b & ->)]; [by exists "", r|by exists (String d a), b].
    + intros ([|c a] & b & Hab); simpl in Hab; [left; by exists b|].
      injection Hab as -> ->. right. by exists a, b.
Qed.

Lemma includes_empty s : includes s "" = true.
Proof. destruct s; reflexivity. Qed.

Lemma includes_append_l a b p : includes a p = true -> includes (a +:+ b) p = true.
Proof.
  rewrite !includes_spec. intros (x & y & ->). exists x, (y +:+ b).
  by rewrite !str_app_assoc.
Qed.

Lemma trim_start_all_space s :
  trim_start s = "" <-> Forall (fun c => is_js_space c = true) (String.list_ascii_of_string s).
Proof.
  induction s as [|c s IH]; simpl; [split; [constructor|done]|].
  rewrite Forall_cons, <- IH. destruct (is_js_space c); naive_solver.
Qed.

Lemma trim_end_empty s :
  trim_end s = "" <-> Forall (fun c => is_js_space c = true) (String.list_ascii_of_string s).
Proof.
  induction s as [|c s IH]; simpl; [split; [constructor|done]|].
  rewrite Forall_cons, <- IH.
  destruct (trim_end s); [destruct (is_js_space c)|]; naive_solver.
Qed.

(** [query.trim()] is falsy exactly when the query is all white space. *)
Lemma trim_empty_iff s :
  truthy (trim s) = false <-> Forall (fun c => is_js_space c = true) (String.list_ascii_of_string s).
Proof.
  unfold trim. rewrite <- trim_start_all_space.
  assert (truthy (trim_end (trim_start s)) = false <-> trim_end (trim_start s) = "")
    as -> by (destruct (trim_end _); split; done).
  rewrite trim_end_empty. split.
  - intros H. induction s as [|c s IH]; simpl in *; [done|].
    destruct (is_js_space c) eqn:Hc; [auto|]. inversion H. congruence.
  - intros ->. constructor.
Qed.

End JsString.
