(* ===== verification/Articles.v ===== *)
(** * Articles: the article record, the mock feed and the category filter

    An article is the object literal of lines 182-235 of [src/script.js]:
    seven fields, one of which ([source]) is itself an object with a
    [name].  [mockNews] is the six-element array of lines 181-236, and
    [select_category] the [if] of lines 239-243 that keeps the whole array
    for ['general'] and the articles of the current category otherwise.
    [currentCategory] comes from [getAttribute('data-category')] and may be
    [null], so it is an [option string] here. *)

From S2P Require Import Prelude.
Open Scope string_scope.
Open Scope list_scope.
Open Scope news_scope.

Module Articles.

Record news_source := { name : string }.

Record article := {
  title : string;
  description : string;
  urlToImage : string;
  publishedAt : string;
  source : news_source;
  url : string;
  category : string
}.

#[export] Instance news_source_eq_dec : EqDecision news_source.
Proof. solve_decision. Defined.
#[export] Instance article_eq_dec : EqDecision article.
Proof. solve_decision. Defined.

Definition mk (t d img date src u cat : string) : article :=
  {| title := t; description := d; urlToImage := img; publishedAt := date;
     source := {| name := src |}; url := u; category := cat |}.

Definition mockNews : list article := [
  mk "Pakistan's Economic Growth Exceeds Expectations"
     "The latest economic reports indicate that Pakistan's GDP growth has surpassed government projections, with significant improvements in manufacturing and agriculture sectors."
     "https://images.unsplash.com/photo-1566378246598-5b11a0d486cc?ixlib=rb-4.0.3&ixid=MnwxMjA3fDB8MHxwaG90by1wYWdlfHx8fGVufDB8fHx8&auto=format&fit=crop&w=400&q=80"
     "2023-07-15T08:30:00Z" "Dawn News" "#" "general";
  mk "New Technology Park Inaugurated in Islamabad"
     "Prime Minister inaugurated a state-of-the-art technology park aimed at fostering innovation and providing opportunities for IT startups and entrepreneurs."
     "https://images.unsplash.com/photo-1593113630400-ea4288922497?ixlib=rb-4.0.3&ixid=MnwxMjA3fDB8MHxwaG90by1wYWdlfHx8fGVufDB8fHx8&auto=format&fit=crop&w=400&q=80"
     "2023-07-14T14:45:00Z" "The News" "#" "technology";
  mk "Pakistan Cricket Team Announces Squad for World Cup"
     "The national selection committee has revealed the 15-member squad that will represent Pakistan in the upcoming ICC World Cup tournament."
     "https://www.pcb.com.pk/timthumb.php?src=images/news_images/featured_images/cb303443a112.jpeg&w=675"
     "2023-07-14T10:15:00Z" "Geo Sports" "#" "sports";
  mk "Healthcare Initiative Launched in Rural Areas"
     "The government has launched a new healthcare initiative aimed at improving medical facilities in remote and underserved regions of the country."
     "https://www.unicef.org/pakistan/sites/unicef.org.pakistan/files/styles/hero_extended/public/UNICEF%20x%20Human%20Story%20x%20RHC%20Ganda%20Singh%20Wala%20%2851%29.JPG.webp?itok=KqO96cVm"
     "2023-07-13T16:20:00Z" "Health Times" "#" "health";
  mk "Pakistan's Film Industry Sees Revival"
     "Cinema attendance and local film production have shown significant growth this year, indicating a revival of the Pakistani film industry."
     "https://i.dawn.com/primary/2024/12/301615176f67f70.jpg?r=162500"
     "2023-07-13T09:30:00Z" "Entertainment PK" "#" "entertainment";
  mk "Tech Startups Attract Record Investments"
     "Pakistan's technology startups have attracted record levels of venture capital funding in the first half of 2023, signaling growing investor confidence."
     "https://images.unsplash.com/photo-1553877522-43269d4ea984?ixlib=rb-4.0.3&ixid=MnwxMjA3fDB8MHxwaG90by1wYWdlfHx8fGVufDB8fHx8&auto=format&fit=crop&w=400&q=80"
     "2023-07-12T11:45:00Z" "Tech News PK" "#" "technology"
].

(** [article.category === currentCategory] *)
Definition in_category (cur : option string) (a : article) : bool :=
  cur ===? category a.

(** Lines 239-243: [currentCategory !== 'general'] selects by category,
    otherwise the whole array is kept (the same array object). *)
Definition select_category (cur : option string) (fetched : list article) : list article :=
  if negb (cur ===? "general") then List.filter (in_category cur) fetched else fetched.

(** ** Lemmas *)

Lemma select_general fetched : select_category (Some "general") fetched = fetched.
Proof. reflexivity. Qed.

Lemma select_category_spec cur fetched :
  cur <> Some "general" ->
  select_category cur fetched = List.filter (fun a => bool_decide (cur = Some (category a))) fetched.
Proof.
  intros Hg. unfold select_category.
  replace (cur ===? "general") with false
    by (symmetry; apply not_true_iff_false; rewrite opt_str_eqb_true; done).
  apply filter_ext_in. intros a _. unfold in_category.
  destruct (cur ===? category a) eqn:E; symmetry.
  - apply bool_decide_eq_true. by apply opt_str_eqb_true.
  - apply bool_decide_eq_false. rewrite <- opt_str_eqb_true. by rewrite E.
Qed.

Lemma select_category_sublist cur fetched : select_category cur fetched `sublist_of` fetched.
Proof. unfold select_category. destruct (negb _); [apply filter_sublist|done]. Qed.

Lemma select_category_idem cur fetched :
  select_category cur (select_category cur fetched) = select_category cur fetched.
Proof. unfold select_category. destruct (negb _); [apply filter_idem|done]. Qed.

(** C31: the category selection of [fetchNews] keeps every fetched article
    for ['general'] and otherwise exactly the fetched articles whose
    [category] equals [currentCategory], in their order (none when the
    button had no [data-category], [currentCategory] being [null]). *)
Theorem select_category_correct (cur : option string) (fetched : list article) :
  (cur = Some "general" -> select_category cur fetched = fetched) /\
  (cur <> Some "general" ->
     forall a, In a (select_category cur fetched) <-> In a fetched /\ cur = Some (category a)) /\
  select_category cur fetched `sublist_of` fetched /\
  (cur = None -> select_category cur fetched = []).
Proof.
  split_and!.
  - intros ->. apply select_general.
  - intros Hg a. rewrite select_category_spec, filter_In by done.
    by rewrite bool_decide_eq_true.
  - apply select_category_sublist.
  - intros ->. unfold select_category. simpl. induction fetched; done.
Qed.

End Articles.
