(* ===== verification/Render.v ===== *)
(** * Render: [displayNews], the grid renderer (lines 266-299)

    [displayNews] empties [newsGrid] and then either writes the single
    "no results" placeholder (lines 269-277, an early [return]) or appends
    one [<article class="news-card">] per input article, in input order
    (lines 279-298).  The grid is modelled as the list of its child nodes;
    a card records the values the template of lines 283-295 interpolates,
    and the date is kept as the symbolic text
    [new Date(publishedAt).toLocaleDateString()], since its rendering
    depends on the viewer's locale.  [grid_wf] is the shape of a grid the
    renderer writes: the placeholder alone or cards only. *)

From S2P Require Import Prelude Articles.
Open Scope string_scope.
Open Scope list_scope.
Open Scope news_scope.

Module Render.
Import Articles.

(** [new Date(iso).toLocaleDateString()] *)
Inductive date_text := LocaleDateOf (iso : string).

Record card := {
  card_img : string;        (** [<img src="${article.urlToImage}"] *)
  card_alt : string;        (** [alt="${article.title}"] *)
  card_category : string;   (** [<span class="category">] *)
  card_title : string;      (** [<h3>] *)
  card_text : string;       (** [<p>] *)
  card_href : string;       (** [<a href="${article.url}"] *)
  card_source : string;     (** [${article.source.name}] *)
  card_date : date_text
}.

Inductive grid_node :=
| NoResults                  (** the [.error-message] placeholder, lines 270-275 *)
| NewsCard (c : card).       (** one [article.news-card], lines 280-297 *)

Definition card_of (a : article) : card :=
  {| card_img := urlToImage a; card_alt := title a; card_category := category a;
     card_title := title a; card_text := description a; card_href := url a;
     card_source := name (source a); card_date := LocaleDateOf (publishedAt a) |}.

Definition displayNews (articlesToDisplay : list article) : list grid_node :=
  match articlesToDisplay with
  | [] => [NoResults]
  | _ => map (fun a => NewsCard (card_of a)) articlesToDisplay
  end.

Definition is_card (n : grid_node) : bool :=
  match n with NewsCard _ => true | NoResults => false end.

Definition count_cards (g : list grid_node) : nat := length (List.filter is_card g).
Definition count_placeholders (g : list grid_node) : nat :=
  length (List.filter (fun n => negb (is_card n)) g).

(** The shapes [displayNews] leaves the grid in: the placeholder alone,
    or cards only (none at all between the [innerHTML = ''] of
    [fetchNews] and the end of a load). *)
Definition grid_wf (g : list grid_node) : bool :=
  match g with
  | [NoResults] => true
  | _ => forallb is_card g
  end.

(** ** Lemmas *)

Lemma displayNews_nonempty arts :
  arts <> [] -> displayNews arts = map (fun a => NewsCard (card_of a)) arts.
Proof. by destruct arts. Qed.

Lemma count_cards_map arts : count_cards (map (fun a => NewsCard (card_of a)) arts) = length arts.
Proof. unfold count_cards. induction arts; simpl; auto. Qed.

Lemma count_placeholders_map arts :
  count_placeholders (map (fun a => NewsCard (card_of a)) arts) = 0.
Proof. unfold count_placeholders. induction arts; simpl; auto. Qed.

Lemma displayNews_wf arts : grid_wf (displayNews arts) = true.
Proof.
  destruct arts as [|a arts]; [done|]. rewrite displayNews_nonempty by done.
  simpl. induction arts; simpl; auto.
Qed.

#[export] Hint Resolve displayNews_wf : news.

(** ** Properties of [displayNews] *)

(** C8: rendering a list of N articles yields exactly N cards and no
    placeholder when N > 0, and exactly one placeholder and no card when
    N = 0; the i-th node of the grid is the card of the i-th article (the
    order of the input is kept). *)
Theorem displayNews_correct (arts : list article) :
  count_cards (displayNews arts) = length arts /\
  count_placeholders (displayNews arts) = (match arts with [] => 1 | _ => 0 end) /\
  (forall i a, arts !! i = Some a -> displayNews arts !! i = Some (NewsCard (card_of a))).
Proof.
  destruct arts as [|a0 arts0] eqn:E; [split_and!; try done; by intros ? ? ?|].
  rewrite <- E. rewrite displayNews_nonempty by (subst; done).
  split_and!; [apply count_cards_map|by rewrite count_placeholders_map; subst|].
  intros i a Hi. by rewrite list_lookup_fmap, Hi.
Qed.

End Render.
