(* ===== verification/Html.v ===== *)
(** * Html: the markup [displayNews] writes (lines 266-299)

    [Render] keeps a card as the values the template interpolates; this
    file writes the two template literals of [displayNews] out as strings,
    character for character (their line breaks and indentation included):
    the "no results" placeholder assigned to [newsGrid.innerHTML] (lines
    270-275) and the card template assigned to [articleEl.innerHTML] (lines
    283-295).  A template literal is the concatenation ([cat]) of its text
    pieces and of its [${...}] values, converted with no escaping.  The
    date [new Date(article.publishedAt).toLocaleDateString()] depends on
    the viewer's locale: it is the Section variable [toLocaleDateString].

    [escape_html] is the reference a renderer that escapes its feed would
    apply to each value ([&], [<], [>] and the double quote as entities);
    the theorems compare the script's markup with the escaped one: they
    agree exactly on feeds without markup characters, and every [<] of a
    feed value opens markup in the script's card. *)

From S2P Require Import Prelude Articles Render.
Open Scope string_scope.
Open Scope list_scope.
Open Scope news_scope.

Module Html.
Import Articles Render.

(** ** Strings of the templates *)

(** The concatenation of the pieces of a template literal. *)
Fixpoint cat (l : list string) : string :=
  match l with
  | [] => EmptyString
  | s :: l' => s +:+ cat l'
  end.

Definition nl : string := String "010"%char EmptyString.
Definition dq : string := String "034"%char EmptyString.

(** [n] spaces of indentation. *)
Fixpoint sp (n : nat) : string :=
  match n with 0 => EmptyString | S n' => String " "%char (sp n') end.

(** Lines 270-275, the placeholder written when there is nothing to show. *)
Definition no_results_html : string :=
  cat [nl;
       sp 12; "<div class="; dq; "error-message"; dq; " style="; dq; "grid-column: 1 / -1;"; dq; ">"; nl;
       sp 16; "<i class="; dq; "fas fa-search"; dq; "></i>"; nl;
       sp 16; "<p>No news articles found. Try a different search term.</p>"; nl;
       sp 12; "</div>"; nl;
       sp 8].

(** Lines 283-295 with the eight values interpolated, in template order:
    [urlToImage], [title] (the [alt]), [category], [title], [description],
    [url], [source.name] and the date. *)
Definition card_template (img alt cat_ h3 p href src date : string) : string :=
  cat [nl;
       sp 12; "<img src="; dq; img; dq; " alt="; dq; alt; dq; " class="; dq; "news-img"; dq; ">"; nl;
       sp 12; "<div class="; dq; "news-content"; dq; ">"; nl;
       sp 16; "<span class="; dq; "category"; dq; ">"; cat_; "</span>"; nl;
       sp 16; "<h3>"; h3; "</h3>"; nl;
       sp 16; "<p>"; p; "</p>"; nl;
       sp 16; "<a href="; dq; href; dq; " target="; dq; "_blank"; dq; " class="; dq; "read-more"; dq;
              ">Read More</a>"; nl;
       sp 16; "<div class="; dq; "news-meta"; dq; ">"; nl;
       sp 20; "<span>"; src; "</span>"; nl;
       sp 20; "<span>"; date; "</span>"; nl;
       sp 16; "</div>"; nl;
       sp 12; "</div>"; nl;
       sp 8].

(** ** Escaping, the reference *)

Definition escape_char (c : ascii) : string :=
  if Ascii.eqb c "&"%char then "&amp;"
  else if Ascii.eqb c "<"%char then "&lt;"
  else if Ascii.eqb c ">"%char then "&gt;"
  else if Ascii.eqb c "034"%char then "&quot;"
  else String c EmptyString.

Fixpoint escape_html (s : string) : string :=
  match s with
  | EmptyString => EmptyString
  | String c s' => escape_char c +:+ escape_html s'
  end.

(** A character markup gives a meaning to. *)
Definition special (c : ascii) : bool :=
  Ascii.eqb c "&"%char || Ascii.eqb c "<"%char || Ascii.eqb c ">"%char || Ascii.eqb c "034"%char.

Definition html_safe (s : string) : bool :=
  forallb (fun c => negb (special c)) (String.list_ascii_of_string s).

(** Occurrences of a character. *)
Fixpoint count_char (x : ascii) (s : string) : nat :=
  match s with
  | EmptyString => 0
  | String c s' => (if Ascii.eqb c x then 1 else 0) + count_char x s'
  end.

(** The extra length escaping adds to a character. *)
Definition escape_extra (c : ascii) : nat :=
  if Ascii.eqb c "&"%char then 4
  else if Ascii.eqb c "<"%char then 3
  else if Ascii.eqb c ">"%char then 3
  else if Ascii.eqb c "034"%char then 5 else 0.

(** The feed values of an article other than the date, all safe. *)
Definition article_fields_safe (a : article) : bool :=
  forallb html_safe [urlToImage a; title a; category a; description a; url a; name (source a)].

Section Cards.
Variable toLocaleDateString : string -> string.

(** The values interpolated into the card of [article], in template order. *)
Definition card_values (a : article) : list string :=
  [urlToImage a; title a; category a; title a; description a; url a; name (source a);
   toLocaleDateString (publishedAt a)].

(** [articleEl.innerHTML] for [article] (lines 283-295). *)
Definition card_inner (a : article) : string :=
  card_template (urlToImage a) (title a) (category a) (title a) (description a) (url a)
                (name (source a)) (toLocaleDateString (publishedAt a)).

(** The same template with every value escaped. *)
Definition escaped_card (a : article) : string :=
  card_template (escape_html (urlToImage a)) (escape_html (title a)) (escape_html (category a))
                (escape_html (title a)) (escape_html (description a)) (escape_html (url a))
                (escape_html (name (source a))) (escape_html (toLocaleDateString (publishedAt a))).

End Cards.

(** ** Lemmas on the strings of the templates *)

Lemma str_length_app (a b : string) : String.length (a +:+ b) = String.length a + String.length b.
Proof. induction a as [|c a IH]; [done|]. rewrite str_app_cons. simpl. by rewrite IH. Qed.

Lemma count_char_app x a b : count_char x (a +:+ b) = count_char x a + count_char x b.
Proof. induction a as [|c a IH]; [done|]. rewrite str_app_cons. simpl. rewrite IH. lia. Qed.

Lemma count_char_cat x l : count_char x (cat l) = sum_list_with (count_char x) l.
Proof. induction l as [|s l IH]; [done|]. simpl. by rewrite count_char_app, IH. Qed.

Lemma length_cat l : String.length (cat l) = sum_list_with String.length l.
Proof. induction l as [|s l IH]; [done|]. simpl. by rewrite str_length_app, IH. Qed.

#[export] Hint Rewrite count_char_app count_char_cat str_length_app length_cat : news_rw.

Lemma escape_html_cons c s : escape_html (String c s) = escape_char c +:+ escape_html s.
Proof. done. Qed.

(** No [<] is left in an escaped value. *)
Lemma count_lt_escape s : count_char "<" (escape_html s) = 0.
Proof.
  induction s as [|c s IH]; [done|].
  rewrite escape_html_cons, count_char_app, IH.
  unfold escape_char. destruct (Ascii.eqb c "&") eqn:E1; [done|].
  destruct (Ascii.eqb c "<") eqn:E2; [done|].
  destruct (Ascii.eqb c ">"); [done|]. destruct (Ascii.eqb c "034"); [done|].
  simpl. by rewrite E2.
Qed.

Lemma length_escape_char c : String.length (escape_char c) = 1 + escape_extra c.
Proof.
  unfold escape_char, escape_extra.
  destruct (Ascii.eqb c "&"); [done|]. destruct (Ascii.eqb c "<"); [done|].
  destruct (Ascii.eqb c ">"); [done|]. by destruct (Ascii.eqb c "034").
Qed.

Lemma escape_extra_0 c : escape_extra c = 0 <-> special c = false.
Proof.
  unfold escape_extra, special.
  destruct (Ascii.eqb c "&"); [done|]. destruct (Ascii.eqb c "<"); [done|].
  destruct (Ascii.eqb c ">"); [done|]. by destruct (Ascii.eqb c "034").
Qed.

Lemma escape_char_plain c : special c = false -> escape_char c = String c EmptyString.
Proof.
  unfold special, escape_char.
  destruct (Ascii.eqb c "&"); [done|]. destruct (Ascii.eqb c "<"); [done|].
  destruct (Ascii.eqb c ">"); [done|]. by destruct (Ascii.eqb c "034").
Qed.

(** Escaping lengthens a value by exactly the extra length of its markup
    characters, so it leaves the length unchanged only on safe values. *)
Lemma length_escape s :
  String.length (escape_html s) =
    String.length s + sum_list_with escape_extra (String.list_ascii_of_string s).
Proof.
  induction s as [|c s IH]; [done|].
  rewrite escape_html_cons, str_length_app, length_escape_char, IH. simpl. lia.
Qed.

Lemma html_safe_cons c s : html_safe (String c s) = negb (special c) && html_safe s.
Proof. done. Qed.

Lemma escape_extra_sum_0 s :
  sum_list_with escape_extra (String.list_ascii_of_string s) = 0 <-> html_safe s = true.
Proof.
  induction s as [|c s IH]; [done|]. rewrite html_safe_cons. simpl.
  rewrite andb_true_iff, negb_true_iff, <- escape_extra_0, <- IH. lia.
Qed.

Lemma escape_html_safe s : html_safe s = true -> escape_html s = s.
Proof.
  induction s as [|c s IH]; [done|]. rewrite html_safe_cons, andb_true_iff, negb_true_iff.
  intros [Hc Hs]. rewrite escape_html_cons, escape_char_plain, IH by done. done.
Qed.

Lemma escape_html_safe_iff s : escape_html s = s <-> html_safe s = true.
Proof.
  split; [|apply escape_html_safe]. intros Heq.
  apply escape_extra_sum_0. pose proof (length_escape s) as Hl. rewrite Heq in Hl. lia.
Qed.

(** ** Lemmas on the card template *)

Lemma card_template_count_lt img alt c h3 p href src date :
  count_char "<" (card_template img alt c h3 p href src date) =
    17 + sum_list_with (count_char "<") [img; alt; c; h3; p; href; src; date].
Proof. unfold card_template. rewrite count_char_cat. simpl. lia. Qed.

Lemma card_template_length img alt c h3 p href src date :
  String.length (card_template img alt c h3 p href src date) =
    419 + sum_list_with String.length [img; alt; c; h3; p; href; src; date].
Proof. unfold card_template. rewrite !length_cat. simpl. lia. Qed.

Section CardLemmas.
Variable fmt : string -> string.

Lemma card_values_safe a :
  Forall (fun v => html_safe v = true) (card_values fmt a) <->
  article_fields_safe a = true /\ html_safe (fmt (publishedAt a)) = true.
Proof.
  unfold card_values, article_fields_safe. simpl. rewrite !Forall_cons, !andb_true_iff.
  split; [intros (?&?&?&?&?&?&?&?&_); tauto|].
  intros [(?&?&?&?&?&?&_) ?]. split_and!; auto.
Qed.

Lemma card_inner_count_lt a :
  count_char "<" (card_inner fmt a) = 17 + sum_list_with (count_char "<") (card_values fmt a).
Proof. unfold card_inner, card_values. by rewrite card_template_count_lt. Qed.

Lemma escaped_card_count_lt a : count_char "<" (escaped_card fmt a) = 17.
Proof. unfold escaped_card. rewrite card_template_count_lt. simpl. rewrite !count_lt_escape. done. Qed.

Lemma card_inner_escaped_safe a :
  Forall (fun v => html_safe v = true) (card_values fmt a) -> card_inner fmt a = escaped_card fmt a.
Proof.
  unfold card_values, card_inner, escaped_card.
  rewrite !Forall_cons. intros (?&?&?&?&?&?&?&?&_).
  by rewrite !escape_html_safe.
Qed.

Lemma card_inner_escaped_eq a :
  card_inner fmt a = escaped_card fmt a -> Forall (fun v => html_safe v = true) (card_values fmt a).
Proof.
  intros Heq%(f_equal String.length). unfold card_inner, escaped_card in Heq.
  rewrite !card_template_length in Heq. simpl in Heq. rewrite !length_escape in Heq.
  unfold card_values. repeat constructor; apply escape_extra_sum_0; lia.
Qed.
End CardLemmas.

(** ** Properties of the markup *)

(** C32: the feed's values are interpolated into the card unescaped: the
    card of an article holds the 17 [<] of the template plus every [<] of
    the eight interpolated values (the title's counted twice, as [alt] and
    as [<h3>]), so each [<] of the feed opens markup, whereas the escaped
    reference holds exactly the template's 17 whatever the feed. *)
Theorem card_markup_injection (fmt : string -> string) (a : article) :
  count_char "<" (card_inner fmt a) = 17 + sum_list_with (count_char "<") (card_values fmt a) /\
  count_char "<" (escaped_card fmt a) = 17 /\
  count_char "<" (card_inner fmt a) >= 17 + 2 * count_char "<" (title a).
Proof.
  rewrite card_inner_count_lt, escaped_card_count_lt. split_and!; [done|done|].
  unfold card_values. simpl. lia.
Qed.

(** C33: the script's card is the escaping renderer's card exactly when
    none of the article's values (nor its formatted date) holds [&], [<],
    [>] or a double quote. *)
Theorem card_escape_equiv (fmt : string -> string) (a : article) :
  card_inner fmt a = escaped_card fmt a <->
  article_fields_safe a = true /\ html_safe (fmt (publishedAt a)) = true.
Proof.
  rewrite <- card_values_safe.
  split; [apply card_inner_escaped_eq|apply card_inner_escaped_safe].
Qed.

(** ** A concrete article *)

(** The date as the en-US locale writes an ISO timestamp read in UTC:
    month/day/year, without leading zeros. *)
Definition drop_zero (s : string) : string :=
  match s with String "0"%char r => r | _ => s end.

Definition en_us_date (iso : string) : string :=
  drop_zero (String.substring 5 2 iso) +:+ "/" +:+ drop_zero (String.substring 8 2 iso) +:+ "/" +:+
  String.substring 0 4 iso.

(** The finding at a concrete article: a title carrying an [<img onerror>]
    adds two elements to its card (in [alt] and in [<h3>]). *)
Definition injected_article : article :=
  mk "<img src=x onerror=alert(1)>" "Breaking" "x.jpg" "2023-07-15T08:30:00Z" "Feed" "#" "general".

Example injected_card_markup :
  count_char "<" (card_inner en_us_date injected_article) = 19 /\
  count_char "<" (escaped_card en_us_date injected_article) = 17.
Proof. split; vm_compute; reflexivity. Qed.

End Html.
