(* ===== verification/Search.v ===== *)
(** * Search: [searchNews] and its two listeners (lines 106-120, 256-263)

    Both search listeners read [searchInput.value.trim()] and call
    [searchNews] only when the trimmed query is non-empty (JavaScript's
    truthiness of a string); the key-press listener does so only for the
    key ['Enter'].  [searchNews] filters the loaded [articles] with a
    case-insensitive substring test on [title] or [description] and hands
    the result to [displayNews]; it never assigns [articles].  The
    listeners return [None] when they do nothing and [Some grid] with the
    new content of [newsGrid] otherwise. *)

From S2P Require Import Prelude JsString Articles Render.
Open Scope string_scope.
Open Scope list_scope.
Open Scope news_scope.

Module Search.
Import JsString Articles Render.

(** The callback of [articles.filter] (lines 257-260). *)
Definition matches (query : string) (a : article) : bool :=
  includes (to_lower (title a)) (to_lower query) ||
  includes (to_lower (description a)) (to_lower query).

Definition filteredNews (articles : list article) (query : string) : list article :=
  List.filter (matches query) articles.

Definition searchNews (articles : list article) (query : string) : list grid_node :=
  displayNews (filteredNews articles query).

(** The body shared by the click listener (lines 107-110) and the
    key-press listener (lines 115-118). *)
Definition run_search (input_value : string) (articles : list article) : option (list grid_node) :=
  let query := trim input_value in
  if truthy query then Some (searchNews articles query) else None.

Definition on_search_click (input_value : string) (articles : list article) :=
  run_search input_value articles.

Definition on_search_keypress (key input_value : string) (articles : list article) :=
  if key === "Enter" then run_search input_value articles else None.

(** ** Lemmas *)

(** The substring reading of [matches]. *)
Lemma matches_spec q a :
  matches q a = true <->
  (exists x y, to_lower (title a) = x +:+ to_lower q +:+ y) \/
  (exists x y, to_lower (description a) = x +:+ to_lower q +:+ y).
Proof. unfold matches. by rewrite orb_true_iff, !includes_spec. Qed.

Lemma matches_lower q a : matches (to_lower q) a = matches q a.
Proof. unfold matches. by rewrite to_lower_idem. Qed.

Lemma filteredNews_In arts q a :
  In a (filteredNews arts q) <-> In a arts /\ matches q a = true.
Proof. apply filter_In_iff. Qed.

Lemma filteredNews_sublist arts q : filteredNews arts q `sublist_of` arts.
Proof. apply filter_sublist. Qed.

Lemma run_search_blank v arts :
  Forall (fun c => is_js_space c = true) (String.list_ascii_of_string v) ->
  run_search v arts = None.
Proof. intros H. unfold run_search. by rewrite (proj2 (trim_empty_iff v) H). Qed.

Lemma matches_lower_eq q q' a : to_lower q = to_lower q' -> matches q a = matches q' a.
Proof. intros Hq. unfold matches. by rewrite Hq. Qed.

(** ** Properties of the search *)

(** C9: the search is case-insensitive: two queries with the same lower
    case select the same articles, and an article is selected exactly when
    the lower-cased query occurs in its lower-cased title or description;
    the selection keeps the order of [articles] and only contains loaded
    articles. *)
Theorem search_case_insensitive (arts : list article) (q q' : string) :
  to_lower q = to_lower q' ->
  filteredNews arts q = filteredNews arts q' /\
  filteredNews arts q `sublist_of` arts /\
  (forall a, In a (filteredNews arts q) <->
     In a arts /\
     ((exists x y, to_lower (title a) = x +:+ to_lower q +:+ y) \/
      (exists x y, to_lower (description a) = x +:+ to_lower q +:+ y))).
Proof.
  intros Hq. split_and!.
  - apply filter_ext_in. intros a _. by apply matches_lower_eq.
  - apply filteredNews_sublist.
  - intros a. by rewrite filteredNews_In, matches_spec.
Qed.

(** C10: a search whose box holds only white space does nothing, and any
    other search renders exactly the loaded articles matching the trimmed
    query; the key-press listener searches only on ['Enter']. *)
Theorem search_handlers_spec (v key : string) (arts : list article) :
  (Forall (fun c => is_js_space c = true) (String.list_ascii_of_string v) ->
     on_search_click v arts = None /\ on_search_keypress key v arts = None) /\
  (~ Forall (fun c => is_js_space c = true) (String.list_ascii_of_string v) ->
     on_search_click v arts = Some (displayNews (filteredNews arts (trim v)))) /\
  (key <> "Enter" -> on_search_keypress key v arts = None) /\
  (key = "Enter" -> on_search_keypress key v arts = on_search_click v arts).
Proof.
  unfold on_search_click, on_search_keypress. split_and!.
  - intros Hb. rewrite run_search_blank by done. by destruct (key === "Enter").
  - intros Hnb. unfold run_search. destruct (truthy (trim v)) eqn:Ht; [done|].
    exfalso. apply Hnb. by apply trim_empty_iff.
  - intros Hk. by rewrite (proj2 (String.eqb_neq key "Enter") Hk).
  - intros ->. done.
Qed.

(** The specification's scenario: searching "cricket" over the six
    mock articles selects exactly the squad announcement, and searching
    "PAKISTAN" matches the article titled "Pakistan's Economic Growth
    Exceeds Expectations". *)
Theorem search_scenarios :
  filteredNews mockNews "cricket" =
    [mk "Pakistan Cricket Team Announces Squad for World Cup"
        "The national selection committee has revealed the 15-member squad that will represent Pakistan in the upcoming ICC World Cup tournament."
        "https://www.pcb.com.pk/timthumb.php?src=images/news_images/featured_images/cb303443a112.jpeg&w=675"
        "2023-07-14T10:15:00Z" "Geo Sports" "#" "sports"] /\
  (exists a, head mockNews = Some a /\
     title a = "Pakistan's Economic Growth Exceeds Expectations" /\ matches "PAKISTAN" a = true).
Proof. split; [vm_compute; reflexivity|eexists; split_and!; vm_compute; reflexivity]. Qed.

(** ** Witnesses *)

Lemma search_case_insensitive_witness :
  to_lower "PAKISTAN" = to_lower "pakistan" /\
  filteredNews mockNews "PAKISTAN" = filteredNews mockNews "pakistan".
Proof.
  assert (to_lower "PAKISTAN" = to_lower "pakistan") as H by reflexivity.
  split; [exact H|exact (proj1 (search_case_insensitive mockNews _ _ H))].
Defined.

End Search.
