(* ===== verification/Loader.v ===== *)
(** * Loader: [fetchNews] (lines 167-253)

    [fetchNews] is [async]: its body runs synchronously up to the [await]
    of line 178 ([fetch_start]: clear the grid, show the loading
    indicator, hide the error panel) and the rest runs later, when the
    1 s timeout fires ([fetch_resume]: build the feed, select the current
    category, store it in [articles], render it; on a rejected promise,
    log and show the error panel; in both cases hide the indicator in
    [finally]).  The continuation captures nothing of its activation: it
    reads the global [currentCategory] when it resumes, so it is a function
    of that value.  [inflight] counts the suspended activations.

    The article provider is the interface [ArticleSource]: the script's
    provider is the constant [mockNews] ([mock_source]); a remote provider
    may also reject.  The specification's three-state machine of the loader
    (idle, loading, success or error) is [spec_step]; [loader_refines]
    shows that the code implements it when loads do not overlap, and
    [overlap_hides_indicator] that it does not when they do. *)

From S2P Require Import Prelude Dom Articles Render.
Open Scope string_scope.
Open Scope list_scope.
Open Scope news_scope.

Module Loader.
Import Articles Render.

(** The values the script writes to [style.display]; [DisplayUnset] is the
    initial style of the HTML page. *)
Inductive display := DisplayUnset | DisplayFlex | DisplayNone | DisplayBlock.

#[export] Instance display_eq_dec : EqDecision display.
Proof. solve_decision. Defined.

Record feed := {
  grid : list grid_node;          (** children of [#news-grid] *)
  loading : display;              (** [newsLoading.style.display] *)
  error : display;                (** [newsError.style.display] *)
  articles : list article;        (** the global [articles] *)
  inflight : nat                  (** suspended [fetchNews] activations *)
}.

(** The provider awaited by the [try] block: [None] is a rejection. *)
Class ArticleSource := {
  fetch_articles : option string -> option (list article)
}.

(** Lines 178-236: the mock provider of the script always resolves to the
    six articles, whatever the category. *)
#[export] Instance mock_source : ArticleSource :=
  {| fetch_articles := fun _ => Some mockNews |}.

(** Lines 168-170 and the [await] of line 178. *)
Definition fetch_start (f : feed) : feed :=
  {| grid := []; loading := DisplayFlex; error := DisplayNone;
     articles := articles f; inflight := S (inflight f) |}.

Section Resume.
Context `{ArticleSource}.

(** Lines 180-252, run when the awaited timeout fires, with the value of
    [currentCategory] at that moment. *)
Definition fetch_resume (cur : option string) (f : feed) : feed * list output :=
  match fetch_articles cur with
  | Some fetched =>
      let arts := select_category cur fetched in
      ({| grid := displayNews arts; loading := DisplayNone; error := error f;
          articles := arts; inflight := pred (inflight f) |}, [])
  | None =>
      ({| grid := grid f; loading := DisplayNone; error := DisplayBlock;
          articles := articles f; inflight := pred (inflight f) |},
       [ConsoleError "Error fetching news:"])
  end.
End Resume.

(** ** The loader as a labelled transition system *)

Inductive load_event := EvStart | EvResume (cur : option string).

Section Steps.
Context `{ArticleSource}.

Inductive loader_step : feed -> load_event -> feed -> Prop :=
| step_start f : loader_step f EvStart (fetch_start f)
| step_resume f cur :
    0 < inflight f -> loader_step f (EvResume cur) (fetch_resume cur f).1.
End Steps.

(** ** The specification's machine (spec 4.3)

    The loader is idle, loading, showing the articles of a load that
    resolved, or showing the error of one that was rejected.  A start
    always leads to loading; from loading, a resume leads to success with
    the current category's selection of what the provider answered, or to
    failure when it rejects. *)

Inductive phase := Idle | Loading | Success (shown : list article) | Failed.

Section Spec.
Context `{ArticleSource}.

Inductive spec_step : phase -> load_event -> phase -> Prop :=
| spec_start p : spec_step p EvStart Loading
| spec_ok cur fetched :
    fetch_articles cur = Some fetched ->
    spec_step Loading (EvResume cur) (Success (select_category cur fetched))
| spec_fail cur :
    fetch_articles cur = None -> spec_step Loading (EvResume cur) Failed.
End Spec.

(** What the page shows of the loader: the indicator, the error panel and
    the stored articles. *)
Definition abs_phase (f : feed) : phase :=
  match loading f with
  | DisplayUnset => Idle
  | DisplayFlex => Loading
  | _ => if decide (error f = DisplayBlock) then Failed else Success (articles f)
  end.

(** The coupling of the indicator with the activations, for loads that do
    not overlap; once the indicator is hidden without an error, the grid
    shows the stored articles. *)
Definition coupled (f : feed) : Prop :=
  inflight f <= 1 /\ (inflight f = 1 <-> loading f = DisplayFlex) /\
  (loading f = DisplayFlex -> error f = DisplayNone) /\
  (loading f = DisplayNone -> error f <> DisplayBlock -> grid f = displayNews (articles f)).

(** A start that does not overlap a load in flight. *)
Definition sequential (f : feed) (e : load_event) : Prop :=
  match e with EvStart => inflight f = 0 | EvResume _ => True end.

(** ** Lemmas *)

Section Lemmas.
Context `{ArticleSource}.

Lemma fetch_resume_inflight cur f : inflight (fetch_resume cur f).1 = pred (inflight f).
Proof. unfold fetch_resume. by destruct (fetch_articles cur). Qed.

Lemma fetch_resume_loading cur f : loading (fetch_resume cur f).1 = DisplayNone.
Proof. unfold fetch_resume. by destruct (fetch_articles cur). Qed.

Lemma fetch_resume_ok cur f fetched :
  fetch_articles cur = Some fetched ->
  fetch_resume cur f =
    ({| grid := displayNews (select_category cur fetched); loading := DisplayNone;
        error := error f; articles := select_category cur fetched;
        inflight := pred (inflight f) |}, []).
Proof. intros Hf. unfold fetch_resume. by rewrite Hf. Qed.

Lemma fetch_resume_fail cur f :
  fetch_articles cur = None ->
  fetch_resume cur f =
    ({| grid := grid f; loading := DisplayNone; error := DisplayBlock;
        articles := articles f; inflight := pred (inflight f) |},
     [ConsoleError "Error fetching news:"]).
Proof. intros Hf. unfold fetch_resume. by rewrite Hf. Qed.

(** Whatever the provider does, a resumed load leaves the grid in one of
    the shapes [displayNews] writes, or as it was. *)
Lemma fetch_resume_grid_wf cur f :
  grid_wf (grid f) = true -> grid_wf (grid (fetch_resume cur f).1) = true.
Proof. unfold fetch_resume. destruct (fetch_articles cur); simpl; auto with news. Qed.
End Lemmas.

#[export] Hint Rewrite @fetch_resume_inflight : news_rw.

(** ** Properties of the loader *)

Section Properties.
Context `{ArticleSource}.

(** C4: the loader implements the specification's machine when loads do
    not overlap: from a state where the indicator is coupled with the
    activations, every start that does not overlap a load in flight and
    every resume keeps the coupling and is the step of [spec_step] for the
    same event between the phases the page shows: a start shows loading; a
    resume whose provider resolves shows (and renders) the current
    category's selection of its answer, and one whose provider rejects
    shows the error panel. *)
Theorem loader_refines (f : feed) (e : load_event) (f' : feed) :
  loader_step f e f' -> coupled f -> sequential f e ->
  coupled f' /\ spec_step (abs_phase f) e (abs_phase f').
Proof.
  intros Hs (Hle & Hflex & Herr & Hgrid) Hseq. invc Hs; simpl in Hseq.
  - split; [|constructor]. unfold coupled, fetch_start; simpl. split_and!; naive_solver lia.
  - assert (loading f = DisplayFlex) as Hl by (apply Hflex; lia).
    unfold abs_phase at 1. rewrite Hl.
    destruct (fetch_articles cur) as [fetched|] eqn:Hf.
    + rewrite (fetch_resume_ok _ _ _ Hf). split.
      * unfold coupled; simpl. rewrite Herr by done. split_and!; naive_solver lia.
      * unfold abs_phase; cbn [loading error articles]. rewrite Herr by done.
        rewrite decide_False by discriminate. by constructor.
    + rewrite (fetch_resume_fail _ _ Hf). split.
      * unfold coupled; simpl. split_and!; naive_solver lia.
      * unfold abs_phase; cbn [loading error]. rewrite decide_True by done. by constructor.
Qed.

(** C5: a completed load that the loader's machine sees succeed stores
    the selection of the current category from the fetched articles,
    renders exactly that selection and hides the indicator; a rejected
    one keeps the previous [articles] and grid, shows the error panel and
    logs the error. *)
Theorem fetch_resume_outcome (cur : option string) (f : feed) :
  let '(f', out) := fetch_resume cur f in
  loading f' = DisplayNone /\ inflight f' = pred (inflight f) /\
  match fetch_articles cur with
  | Some fetched =>
      articles f' = select_category cur fetched /\
      grid f' = displayNews (articles f') /\ error f' = error f /\ out = []
  | None =>
      articles f' = articles f /\ grid f' = grid f /\
      error f' = DisplayBlock /\ out = [ConsoleError "Error fetching news:"]
  end.
Proof.
  destruct (fetch_articles cur) as [fetched|] eqn:Hf.
  - rewrite (fetch_resume_ok _ _ _ Hf). simpl. done.
  - rewrite (fetch_resume_fail _ _ Hf). simpl. done.
Qed.

(** C21: overlapping loads are not coordinated: after two starts and the
    first resume one activation is still in flight, yet the [finally] of
    the first has already hidden the loading indicator. *)
Theorem overlap_hides_indicator (cur : option string) (f : feed) :
  let f2 := (fetch_resume cur (fetch_start (fetch_start f))).1 in
  inflight f2 = S (inflight f) /\ loading f2 = DisplayNone /\ abs_phase f2 <> Loading.
Proof.
  simpl. rewrite fetch_resume_inflight, fetch_resume_loading. simpl.
  split_and!; [done|done|]. unfold abs_phase. rewrite fetch_resume_loading.
  by case_decide.
Qed.
End Properties.

(** ** Witnesses *)

Definition feed0 : feed :=
  {| grid := []; loading := DisplayUnset; error := DisplayUnset; articles := []; inflight := 0 |}.

Lemma loader_refines_witness :
  loader_step feed0 EvStart (fetch_start feed0) /\ coupled feed0 /\ sequential feed0 EvStart /\
  coupled (fetch_start feed0) /\ spec_step (abs_phase feed0) EvStart (abs_phase (fetch_start feed0)).
Proof.
  assert (loader_step feed0 EvStart (fetch_start feed0)) as Hs by constructor.
  assert (coupled feed0) as Hc
    by (unfold coupled; simpl; split_and!; [lia|split; discriminate|discriminate|discriminate]).
  split_and!; try assumption; [reflexivity| |];
    apply (loader_refines feed0 EvStart (fetch_start feed0) Hs Hc); reflexivity.
Defined.

End Loader.
