(* ===== verification/Navigation.v ===== *)
(** * Navigation: page containers and category buttons

    The DOM half of [navigateToPage] (lines 80-83): every [.page] loses
    [active], then [document.getElementById(`${page}-page`)] gains it.
    When no element has that id, [getElementById] returns [null] and
    reading its [classList] throws a [TypeError] after the pages have
    already been cleared.  The document is modelled by its [.page]
    containers in document order: ids of the form [X-page] are assumed to
    occur on page containers only, and [getElementById] returns the first
    container with the id.  [page] is the value of [getAttribute('data-page')],
    [null] included, which the template literal renders as ["null"].

    The category listener (lines 97-102) clears every [.category-btn],
    marks its own button and reads the button's [data-category]; its DOM
    half is [select_button]. *)

From S2P Require Import Prelude Dom.
Open Scope string_scope.
Open Scope list_scope.
Open Scope news_scope.

Module Navigation.

Record page_el := { page_id : string; page_active : bool }.

#[export] Instance page_ClassToggle : ClassToggle page_el :=
  {| has_active := page_active;
     set_active := fun b p => {| page_id := page_id p; page_active := b |} |}.
#[export] Instance page_ClassToggleLaws : ClassToggleLaws page_el.
Proof. split; done. Qed.

(** A template literal's rendering of a value that may be [null]. *)
Definition js_template_str (v : option string) : string :=
  match v with Some s => s | None => "null" end.

(** [`${page}-page`] *)
Definition page_dom_id (page : option string) : string := js_template_str page +:+ "-page".

(** [document.getElementById(id)]: the index of the first container with
    that id. *)
Fixpoint getElementById (id : string) (pages : list page_el) : option nat :=
  match pages with
  | [] => None
  | p :: ps => if page_id p === id then Some 0 else S <$> getElementById id ps
  end.

(** Lines 80-83. *)
Definition show_page (page : option string) (pages : list page_el) : list page_el * option js_error :=
  let cleared := remove_active_all pages in
  match getElementById (page_dom_id page) cleared with
  | Some i =>
      match add_active_at i cleared with
      | inl pages' => (pages', None)
      | inr e => (cleared, Some e)
      end
  | None => (cleared, Some err_null_classList)
  end.

(** ** Category buttons *)

Record cat_button := { btn_category : option string; btn_active : bool }.

#[export] Instance cat_button_ClassToggle : ClassToggle cat_button :=
  {| has_active := btn_active;
     set_active := fun b c => {| btn_category := btn_category c; btn_active := b |} |}.
#[export] Instance cat_button_ClassToggleLaws : ClassToggleLaws cat_button.
Proof. split; done. Qed.

(** Lines 98-100 for the listener of button [i]: the new button list and
    the new [currentCategory]; [None] when there is no button [i] (no
    listener to run). *)
Definition select_button (i : nat) (btns : list cat_button) : option (list cat_button * option string) :=
  match btns !! i with
  | Some b =>
      match add_active_at i (remove_active_all btns) with
      | inl btns' => Some (btns', btn_category b)
      | inr _ => None
      end
  | None => None
  end.

(** ** Lemmas *)

Lemma getElementById_remove_all id pages :
  getElementById id (remove_active_all pages) = getElementById id pages.
Proof.
  induction pages as [|p pages IH]; simpl; [done|]. by rewrite IH.
Qed.

Lemma getElementById_spec id pages i :
  getElementById id pages = Some i <->
  (exists p, pages !! i = Some p /\ page_id p = id) /\
  (forall j p, j < i -> pages !! j = Some p -> page_id p <> id).
Proof.
  revert i. induction pages as [|q pages IH]; intros i; simpl.
  - split; [done|]. intros [(p & Hp & _) _]. by rewrite lookup_nil in Hp.
  - destruct (page_id q === id) eqn:Hq; [apply str_eqb_true in Hq|apply String.eqb_neq in Hq].
    + split; [intros [= <-]; split; [eauto|intros j p Hj; lia]|].
      intros [(p & Hp & Hid) Hfirst]. destruct i as [|i]; [done|].
      exfalso. apply (Hfirst 0 q); [lia|done|done].
    + split.
      * intros (i' & Hi' & ->)%fmap_Some. apply IH in Hi' as [(p & Hp & Hid) Hfirst].
        split; [eauto|]. intros [|j] p' Hj Hp'; simpl in Hp'; [congruence|].
        apply (Hfirst j); [lia|done].
      * intros [(p & Hp & Hid) Hfirst]. destruct i as [|i]; simpl in Hp; [congruence|].
        apply fmap_Some. exists i. split; [|done]. apply IH. split; [eauto|].
        intros j p' Hj Hp'. apply (Hfirst (S j)); [lia|done].
Qed.

Lemma getElementById_lt id pages i : getElementById id pages = Some i -> i < length pages.
Proof. intros [[p [Hp _]] _]%getElementById_spec. eapply lookup_lt_Some; eauto. Qed.

Lemma show_page_found page pages i :
  getElementById (page_dom_id page) pages = Some i ->
  show_page page pages = (activate_only i pages, None).
Proof.
  intros Hi. unfold show_page. rewrite getElementById_remove_all, Hi.
  by rewrite add_active_at_remove_all by (eapply getElementById_lt; eauto).
Qed.

Lemma show_page_missing page pages :
  getElementById (page_dom_id page) pages = None ->
  show_page page pages = (remove_active_all pages, Some err_null_classList).
Proof. intros Hn. unfold show_page. by rewrite getElementById_remove_all, Hn. Qed.

Lemma select_button_spec i btns b :
  btns !! i = Some b -> select_button i btns = Some (activate_only i btns, btn_category b).
Proof.
  intros Hb. unfold select_button. rewrite Hb.
  by rewrite add_active_at_remove_all by (eapply lookup_lt_Some; eauto).
Qed.

Lemma select_button_Some i btns btns' cur :
  select_button i btns = Some (btns', cur) ->
  exists b, btns !! i = Some b /\ btns' = activate_only i btns /\ cur = btn_category b /\
            i < length btns.
Proof.
  unfold select_button. destruct (btns !! i) as [b|] eqn:Hb; [|done].
  assert (i < length btns) as Hi by (eapply lookup_lt_Some; eauto).
  rewrite add_active_at_remove_all by done. intros [= <- <-]. eauto.
Qed.

Lemma select_button_none i btns : btns !! i = None -> select_button i btns = None.
Proof. intros Hb. unfold select_button. by rewrite Hb. Qed.

Lemma getElementById_In id pages :
  (exists p, In p pages /\ page_id p = id) -> exists i, getElementById id pages = Some i.
Proof.
  induction pages as [|q pages IH]; simpl; [by intros (p & [] & _)|].
  intros (p & [<-|Hin] & Hid).
  - exists 0. by rewrite (proj2 (str_eqb_true _ _) Hid).
  - destruct (page_id q === id); [by exists 0|].
    destruct IH as [i ->]; [eauto|]. by exists (S i).
Qed.

Lemma getElementById_None id pages :
  (forall p, In p pages -> page_id p <> id) -> getElementById id pages = None.
Proof.
  induction pages as [|q pages IH]; intros Hn; simpl; [done|].
  destruct (page_id q === id) eqn:Hq.
  - apply str_eqb_true in Hq. exfalso. by apply (Hn q); [left|].
  - rewrite IH; [done|]. intros p Hp. apply Hn. by right.
Qed.

Lemma lookup_activate_only_self `{ClassToggleLaws E} i (l : list E) x :
  l !! i = Some x -> activate_only i l !! i = Some (set_active true x).
Proof. intros Hx. rewrite lookup_activate_only, Hx. simpl. by rewrite bool_decide_true. Qed.

(** ** Properties of page switching and category selection *)

(** C6: navigating to a page that exists (some container has the id
    [`${page}-page`]) raises no error and leaves exactly one page container
    active, and that container's id is [`${page}-page`]; this holds even
    when several containers share the id (only the first is activated). *)
Theorem show_page_exactly_one (page : option string) (pages : list page_el) :
  (exists p, In p pages /\ page_id p = page_dom_id page) ->
  exists i p,
    (show_page page pages).2 = None /\
    active_indices (show_page page pages).1 = [i] /\
    (show_page page pages).1 !! i = Some p /\ page_id p = page_dom_id page.
Proof.
  intros [i Hi]%getElementById_In.
  pose proof Hi as [[p [Hp Hid]] _]%getElementById_spec.
  rewrite (show_page_found _ _ _ Hi). simpl.
  exists i, (set_active true p). split_and!; [done| |by apply lookup_activate_only_self|done].
  apply active_indices_activate_only. eapply lookup_lt_Some; eauto.
Qed.

(** C22: navigating to a page that has no container (for instance a link
    whose [data-page] is missing, looked up as ["null-page"]) throws a
    [TypeError] after every container has lost [active]: no page is left
    visible. *)
Theorem show_page_missing_blank (page : option string) (pages : list page_el) :
  (forall p, In p pages -> page_id p <> page_dom_id page) ->
  (show_page page pages).2 = Some err_null_classList /\
  active_indices (show_page page pages).1 = [] /\
  length (show_page page pages).1 = length pages.
Proof.
  intros Hn. rewrite show_page_missing by (by apply getElementById_None). simpl.
  split_and!; [done|apply active_indices_remove_all|apply length_remove_active_all].
Qed.

(** C7: after the listener of category button [i] runs, exactly one
    button is selected, it is button [i], and the new [currentCategory]
    is that button's [data-category]. *)
Theorem select_button_exactly_one (i : nat) (btns btns' : list cat_button) (cur : option string) :
  select_button i btns = Some (btns', cur) ->
  active_indices btns' = [i] /\ length btns' = length btns /\
  exists b, btns' !! i = Some b /\ btn_active b = true /\ btn_category b = cur.
Proof.
  intros (b & Hb & -> & -> & Hi)%select_button_Some. split_and!.
  - by apply active_indices_activate_only.
  - apply length_activate_only.
  - exists (set_active true b). split_and!; [by apply lookup_activate_only_self|done|done].
Qed.

(** ** Witnesses *)

Definition demo_pages : list page_el :=
  [ {| page_id := "home-page"; page_active := true |};
    {| page_id := "about-page"; page_active := false |};
    {| page_id := "contact-page"; page_active := false |} ].

Definition demo_buttons : list cat_button :=
  map (fun c => {| btn_category := Some c; btn_active := bool_decide (c = "general") |})
      ["general"; "technology"; "sports"; "health"; "entertainment"].

Lemma show_page_exactly_one_witness :
  (exists p, In p demo_pages /\ page_id p = page_dom_id (Some "about")) /\
  exists i p,
    (show_page (Some "about") demo_pages).2 = None /\
    active_indices (show_page (Some "about") demo_pages).1 = [i] /\
    (show_page (Some "about") demo_pages).1 !! i = Some p /\
    page_id p = page_dom_id (Some "about").
Proof.
  assert (exists p, In p demo_pages /\ page_id p = page_dom_id (Some "about")) as H
    by (eexists; split; [right; left; reflexivity|reflexivity]).
  split; [exact H|exact (show_page_exactly_one (Some "about") demo_pages H)].
Defined.

Lemma show_page_missing_blank_witness :
  (forall p, In p demo_pages -> page_id p <> page_dom_id None) /\
  (show_page None demo_pages).2 = Some err_null_classList /\
  active_indices (show_page None demo_pages).1 = [] /\
  length (show_page None demo_pages).1 = length demo_pages.
Proof.
  assert (forall p, In p demo_pages -> page_id p <> page_dom_id None) as H
    by (intros p [<-|[<-|[<-|[]]]]; discriminate).
  split; [exact H|exact (show_page_missing_blank None demo_pages H)].
Defined.

Lemma select_button_exactly_one_witness :
  select_button 1 demo_buttons = Some (activate_only 1 demo_buttons, Some "technology") /\
  active_indices (activate_only 1 demo_buttons) = [1] /\
  length (activate_only 1 demo_buttons) = length demo_buttons /\
  exists b, activate_only 1 demo_buttons !! 1 = Some b /\ btn_active b = true /\
            btn_category b = Some "technology".
Proof.
  assert (select_button 1 demo_buttons = Some (activate_only 1 demo_buttons, Some "technology"))
    as H by reflexivity.
  split; [exact H|exact (select_button_exactly_one 1 demo_buttons _ _ H)].
Defined.

End Navigation.
