(* ===== verification/Slider.v ===== *)
(** * Slider: the hero slider (lines 122-146)

    [showSlide(index)] clears [active] on every [.hero-slide], marks
    [heroSlides[index]] and stores [index] in the global [currentSlide]
    (lines 123-127).  [heroSlides[index]] is [undefined] for an index out of
    range, and reading its [classList] throws after the slides were
    cleared, so [currentSlide] is then left unchanged.  The "previous"
    listener (lines 129-133) steps back with wrap-around to
    [heroSlides.length - 1], the "next" listener (lines 135-139) and the
    5 s interval callback (lines 142-146) step forward with wrap-around
    to [0].  [currentSlide] is a JavaScript number, modelled as [Z]; the
    slides are their [active] flags. *)

From S2P Require Import Prelude Dom.
Open Scope string_scope.
Open Scope list_scope.
Open Scope news_scope.
Local Open Scope Z_scope.

Module Slider.

Record slider := {
  heroSlides : list bool;     (** [classList.contains('active')] of each slide *)
  currentSlide : Z
}.

Definition slide_count (s : slider) : Z := Z.of_nat (length (heroSlides s)).

(** [heroSlides[index].classList.add('active')] on the cleared list. *)
Definition mark_slide (index : Z) (cleared : list bool) : list bool + js_error :=
  if Z.ltb index 0 then inr err_undefined_classList
  else add_active_at (Z.to_nat index) cleared.

Definition showSlide (index : Z) (s : slider) : slider * option js_error :=
  let cleared := remove_active_all (heroSlides s) in
  match mark_slide index cleared with
  | inl slides => ({| heroSlides := slides; currentSlide := index |}, None)
  | inr e => ({| heroSlides := cleared; currentSlide := currentSlide s |}, Some e)
  end.

(** Lines 130-132. *)
Definition prevSlide_click (s : slider) : slider * option js_error :=
  let newSlide := currentSlide s - 1 in
  let newSlide := if Z.ltb newSlide 0 then slide_count s - 1 else newSlide in
  showSlide newSlide s.

(** Lines 136-138. *)
Definition nextSlide_click (s : slider) : slider * option js_error :=
  let newSlide := currentSlide s + 1 in
  let newSlide := if Z.leb (slide_count s) newSlide then 0 else newSlide in
  showSlide newSlide s.

(** Lines 142-146: the body of the interval callback, the same code as the
    "next" listener. *)
Definition autoAdvance (s : slider) : slider * option js_error :=
  let newSlide := currentSlide s + 1 in
  let newSlide := if Z.leb (slide_count s) newSlide then 0 else newSlide in
  showSlide newSlide s.

(** The slider's invariant: the index is in range and the slide it names is
    the only active one. *)
Definition slider_ok (s : slider) : Prop :=
  0 <= currentSlide s < slide_count s /\
  active_indices (heroSlides s) = [Z.to_nat (currentSlide s)].

(** ** Lemmas *)

Lemma showSlide_in_range index s :
  0 <= index < slide_count s ->
  showSlide index s =
    ({| heroSlides := activate_only (Z.to_nat index) (heroSlides s); currentSlide := index |}, None).
Proof.
  intros Hi. unfold showSlide, mark_slide, slide_count in *.
  destruct (Z.ltb_spec index 0); [lia|].
  by rewrite add_active_at_remove_all by lia.
Qed.

Lemma showSlide_ok index s :
  0 <= index < slide_count s -> slider_ok (showSlide index s).1 /\ (showSlide index s).2 = None.
Proof.
  intros Hi. rewrite showSlide_in_range by done. unfold slider_ok, slide_count in *; simpl.
  rewrite length_activate_only, active_indices_activate_only by lia. done.
Qed.

Lemma showSlide_out_of_range index s :
  ~ (0 <= index < slide_count s) ->
  showSlide index s =
    ({| heroSlides := remove_active_all (heroSlides s); currentSlide := currentSlide s |},
     Some err_undefined_classList).
Proof.
  intros Hi. unfold showSlide, mark_slide, slide_count in *.
  destruct (Z.ltb_spec index 0); [done|].
  by rewrite add_active_at_out_of_range by (rewrite length_remove_active_all; lia).
Qed.

Lemma next_index_range s :
  0 < slide_count s ->
  0 <= currentSlide s < slide_count s ->
  0 <= (if Z.leb (slide_count s) (currentSlide s + 1) then 0 else currentSlide s + 1) < slide_count s.
Proof. intros Hn Hc. destruct (Z.leb_spec (slide_count s) (currentSlide s + 1)); lia. Qed.

Lemma prev_index_range s :
  0 <= currentSlide s < slide_count s ->
  0 <= (if Z.ltb (currentSlide s - 1) 0 then slide_count s - 1 else currentSlide s - 1) < slide_count s.
Proof. intros Hc. destruct (Z.ltb_spec (currentSlide s - 1) 0); lia. Qed.

Lemma autoAdvance_next s : autoAdvance s = nextSlide_click s.
Proof. reflexivity. Qed.

Lemma slider_ok_count s : slider_ok s -> 0 < slide_count s.
Proof. intros [Hc _]. lia. Qed.

(** Under the invariant the slides are determined by the index. *)
Lemma slider_ok_slides s :
  slider_ok s -> heroSlides s = activate_only (Z.to_nat (currentSlide s)) (heroSlides s).
Proof.
  intros [_ Hact]. apply list_eq. intros j. rewrite lookup_activate_only.
  destruct (heroSlides s !! j) as [b|] eqn:Hj; simpl; [|done].
  f_equal. exact (active_indices_only _ _ Hact j b Hj).
Qed.

Lemma activate_only_twice i j (l : list bool) :
  activate_only i (activate_only j l) = activate_only i l.
Proof.
  apply list_eq. intros k. rewrite !lookup_activate_only.
  by destruct (l !! k).
Qed.

Lemma slider_eq s s' :
  slider_ok s -> heroSlides s' = activate_only (Z.to_nat (currentSlide s)) (heroSlides s) ->
  currentSlide s' = currentSlide s -> s' = s.
Proof.
  intros Hok Hsl Hcur. destruct s as [sl c], s' as [sl' c']; simpl in *.
  subst. f_equal. symmetry. apply (slider_ok_slides {| heroSlides := sl; currentSlide := c |} Hok).
Qed.

Lemma next_eq s :
  slider_ok s ->
  let ni := if Z.leb (slide_count s) (currentSlide s + 1) then 0 else currentSlide s + 1 in
  nextSlide_click s =
    ({| heroSlides := activate_only (Z.to_nat ni) (heroSlides s); currentSlide := ni |}, None).
Proof.
  intros Hok. pose proof (slider_ok_count s Hok). destruct Hok as [Hc _].
  apply showSlide_in_range, next_index_range; lia.
Qed.

Lemma prev_eq s :
  slider_ok s ->
  let pi := if Z.ltb (currentSlide s - 1) 0 then slide_count s - 1 else currentSlide s - 1 in
  prevSlide_click s =
    ({| heroSlides := activate_only (Z.to_nat pi) (heroSlides s); currentSlide := pi |}, None).
Proof. intros [Hc _]. apply showSlide_in_range, prev_index_range; lia. Qed.

Lemma slider_ok_activate s i :
  0 <= i < slide_count s ->
  slider_ok {| heroSlides := activate_only (Z.to_nat i) (heroSlides s); currentSlide := i |}.
Proof.
  intros Hi. unfold slider_ok, slide_count in *; simpl.
  rewrite length_activate_only, active_indices_activate_only by lia. done.
Qed.

Lemma prev_of_next (n c : Z) :
  0 <= c < n ->
  (if Z.ltb ((if Z.leb n (c + 1) then 0 else c + 1) - 1) 0 then n - 1
   else (if Z.leb n (c + 1) then 0 else c + 1) - 1) = c.
Proof. intros Hc. z_cases. Qed.

Lemma next_of_prev (n c : Z) :
  0 <= c < n ->
  (if Z.leb n ((if Z.ltb (c - 1) 0 then n - 1 else c - 1) + 1) then 0
   else (if Z.ltb (c - 1) 0 then n - 1 else c - 1) + 1) = c.
Proof. intros Hc. z_cases. Qed.

Lemma prev_ok s :
  slider_ok s -> slider_ok (prevSlide_click s).1 /\ (prevSlide_click s).2 = None.
Proof.
  intros Hok. rewrite (prev_eq s Hok). simpl. split; [|done].
  destruct Hok as [Hc _]. apply slider_ok_activate, prev_index_range; lia.
Qed.

Lemma next_ok s :
  slider_ok s -> slider_ok (nextSlide_click s).1 /\ (nextSlide_click s).2 = None.
Proof.
  intros Hok. pose proof (slider_ok_count s Hok). rewrite (next_eq s Hok). simpl.
  split; [|done]. destruct Hok as [Hc _]. apply slider_ok_activate, next_index_range; lia.
Qed.

(** ** Properties of the slider *)

(** C13: the slider's invariant (index in [0, heroSlides.length) and its
    slide the only active one) is kept by the "previous" and "next"
    listeners and by the interval callback, none of which then throws. *)
Theorem slider_ops_preserve (s : slider) :
  slider_ok s ->
  (slider_ok (prevSlide_click s).1 /\ (prevSlide_click s).2 = None) /\
  (slider_ok (nextSlide_click s).1 /\ (nextSlide_click s).2 = None) /\
  (slider_ok (autoAdvance s).1 /\ (autoAdvance s).2 = None).
Proof.
  intros Hok. change (autoAdvance s) with (nextSlide_click s).
  split_and!; try apply prev_ok; try apply next_ok; done.
Qed.

(** C14: the index wraps around: "next" from the last slide shows slide 0
    and "previous" from slide 0 shows the last slide. *)
Theorem slider_wraparound (s : slider) :
  slider_ok s ->
  (currentSlide s = slide_count s - 1 -> currentSlide (nextSlide_click s).1 = 0) /\
  (currentSlide s = 0 -> currentSlide (prevSlide_click s).1 = slide_count s - 1).
Proof.
  intros Hok. rewrite (prev_eq s Hok), (next_eq s Hok). simpl. split; intros Hc.
  - destruct (Z.leb_spec (slide_count s) (currentSlide s + 1)); lia.
  - destruct (Z.ltb_spec (currentSlide s - 1) 0); lia.
Qed.

(** C15: "previous" undoes "next" and "next" undoes "previous": from any
    state satisfying the invariant, the two clicks in either order give
    back the same slider state. *)
Theorem slider_prev_next_roundtrip (s : slider) :
  slider_ok s ->
  (prevSlide_click (nextSlide_click s).1).1 = s /\ (nextSlide_click (prevSlide_click s).1).1 = s.
Proof.
  intros Hok. pose proof (slider_ok_count s Hok) as Hn. pose proof Hok as [Hc _].
  split.
  - rewrite (next_eq s Hok). simpl.
    rewrite prev_eq by (apply slider_ok_activate, next_index_range; lia). simpl.
    apply slider_eq; [done| |]; unfold slide_count in *; simpl;
      rewrite length_activate_only, ?activate_only_twice, prev_of_next by lia; done.
  - rewrite (prev_eq s Hok). simpl.
    rewrite next_eq by (apply slider_ok_activate, prev_index_range; lia). simpl.
    apply slider_eq; [done| |]; unfold slide_count in *; simpl;
      rewrite length_activate_only, ?activate_only_twice, next_of_prev by lia; done.
Qed.

(** C24: with no [.hero-slide] in the page the interval callback throws a
    [TypeError] every time it fires and [currentSlide] stays [0]-based at
    its old value: the slider's wrap-around does not cover an empty
    slide list. *)
Theorem empty_slider_throws (s : slider) :
  heroSlides s = [] ->
  autoAdvance s = (s, Some err_undefined_classList).
Proof.
  intros He. unfold autoAdvance. rewrite showSlide_out_of_range.
  - destruct s as [sl c]; simpl in *. by subst.
  - unfold slide_count. rewrite He. simpl. destruct (Z.leb_spec 0 (currentSlide s + 1)); lia.
Qed.

(** ** Witnesses *)

Definition demo_slider : slider := {| heroSlides := [true; false; false]; currentSlide := 0 |}.

Lemma demo_slider_ok : slider_ok demo_slider.
Proof. split; [unfold slide_count; simpl; lia|reflexivity]. Qed.

Lemma slider_ops_preserve_witness :
  slider_ok demo_slider /\ slider_ok (autoAdvance demo_slider).1 /\ (autoAdvance demo_slider).2 = None.
Proof.
  split; [exact demo_slider_ok|].
  exact (proj2 (proj2 (slider_ops_preserve demo_slider demo_slider_ok))).
Defined.

Lemma slider_wraparound_witness :
  slider_ok demo_slider /\ currentSlide demo_slider = 0 /\
  currentSlide (prevSlide_click demo_slider).1 = slide_count demo_slider - 1.
Proof.
  split_and!; [exact demo_slider_ok|reflexivity|].
  exact (proj2 (slider_wraparound demo_slider demo_slider_ok) eq_refl).
Defined.

Lemma slider_prev_next_roundtrip_witness :
  slider_ok demo_slider /\ (prevSlide_click (nextSlide_click demo_slider).1).1 = demo_slider.
Proof.
  split; [exact demo_slider_ok|].
  exact (proj1 (slider_prev_next_roundtrip demo_slider demo_slider_ok)).
Defined.

Lemma empty_slider_throws_witness :
  heroSlides {| heroSlides := []; currentSlide := 0 |} = [] /\
  autoAdvance {| heroSlides := []; currentSlide := 0 |} =
    ({| heroSlides := []; currentSlide := 0 |}, Some err_undefined_classList).
Proof. split; [reflexivity|]. apply empty_slider_throws. reflexivity. Defined.

End Slider.
