(* ===== verification/Theme.v ===== *)
(** * Theme: the theme toggle and its restore at start-up (lines 26-43)

    The click listener (lines 27-36) toggles [dark-theme] on [<body>],
    then, according to the new class, sets the button's icon and writes
    ['dark'] or ['light'] under the key ['theme'] of [localStorage].  At
    start-up (lines 39-43) the stored value is read once; ['dark'] adds the
    class and sets the sun icon, anything else (absent included) leaves the
    page as the HTML has it.  [localStorage] is a [gmap string string]; the
    button's [innerHTML] is one of the two icons the script writes or the
    one of the HTML page. *)

From S2P Require Import Prelude.
Open Scope string_scope.
Open Scope list_scope.
Open Scope news_scope.

Module Theme.

Inductive toggle_icon := IconFromHtml | IconSun | IconMoon.

#[export] Instance toggle_icon_eq_dec : EqDecision toggle_icon.
Proof. solve_decision. Defined.

Record theme := {
  dark : bool;                        (** [body.classList.contains('dark-theme')] *)
  icon : toggle_icon;                 (** [themeToggle.innerHTML] *)
  storage : gmap string string        (** [localStorage] *)
}.

Definition themeToggle_click (t : theme) : theme :=
  let d := negb (dark t) in
  if d then {| dark := d; icon := IconSun; storage := <["theme" := "dark"]> (storage t) |}
  else {| dark := d; icon := IconMoon; storage := <["theme" := "light"]> (storage t) |}.

Definition load_saved_theme (t : theme) : theme :=
  if decide (storage t !! "theme" = Some "dark")
  then {| dark := true; icon := IconSun; storage := storage t |}
  else t.

(** The page as a fresh load shows it before the script runs: the HTML's
    light body and icon, with the persisted store. *)
Definition fresh_page (store : gmap string string) : theme :=
  {| dark := false; icon := IconFromHtml; storage := store |}.

(** The preference value the toggle writes for a body state. *)
Definition pref_of (d : bool) : string := if d then "dark" else "light".
Definition icon_of (d : bool) : toggle_icon := if d then IconSun else IconMoon.

(** Indicator and store agree with the body class. *)
Definition theme_consistent (t : theme) : Prop :=
  icon t = icon_of (dark t) /\ storage t !! "theme" = Some (pref_of (dark t)).

(** ** Lemmas *)

Lemma themeToggle_click_eq t :
  themeToggle_click t =
    {| dark := negb (dark t); icon := icon_of (negb (dark t));
       storage := <["theme" := pref_of (negb (dark t))]> (storage t) |}.
Proof. unfold themeToggle_click. by destruct (dark t). Qed.

Lemma themeToggle_consistent t : theme_consistent (themeToggle_click t).
Proof.
  rewrite themeToggle_click_eq. split; simpl; [done|]. by rewrite lookup_insert_eq.
Qed.

(** ** Properties *)

(** C16: toggling the theme twice restores the body class, the icon and
    the stored preference of a page whose icon and store agree with its
    body class; the rest of [localStorage] is never touched. *)
Theorem theme_toggle_twice (t : theme) :
  theme_consistent t ->
  themeToggle_click (themeToggle_click t) = t /\
  (forall k, k <> "theme" -> storage (themeToggle_click t) !! k = storage t !! k).
Proof.
  intros [Hi Hs]. split.
  - rewrite !themeToggle_click_eq. simpl. rewrite negb_involutive, insert_insert_eq.
    destruct t as [d i st]; simpl in *. subst i. f_equal.
    by apply insert_id.
  - intros k Hk. rewrite themeToggle_click_eq. simpl. by rewrite lookup_insert_ne.
Qed.

(** C17: the persisted preference round-trips through a reload: after any
    toggle, a fresh page restored from the stored value shows the same
    body class and icon as the page that was toggled. *)
Theorem theme_persist_restore (t : theme) :
  let t' := themeToggle_click t in
  dark (load_saved_theme (fresh_page (storage t'))) = dark t' /\
  (dark t' = true -> icon (load_saved_theme (fresh_page (storage t'))) = icon t').
Proof.
  rewrite themeToggle_click_eq. unfold load_saved_theme, fresh_page; simpl.
  rewrite lookup_insert_eq. destruct (dark t); simpl; repeat case_decide; simpl; done.
Qed.

(** C25: the first toggle on a page whose store has no ['theme'] entry
    writes one, so two toggles bring back the body class and icon kind but
    leave ['light'] in the store where there was nothing. *)
Theorem theme_toggle_twice_fresh (store : gmap string string) :
  store !! "theme" = None ->
  let t2 := themeToggle_click (themeToggle_click (fresh_page store)) in
  dark t2 = false /\ storage t2 !! "theme" = Some "light" /\ storage t2 <> store.
Proof.
  intros Hn. simpl. split_and!; [done|by rewrite lookup_insert_eq|].
  intros Heq. rewrite <- Heq, lookup_insert_eq in Hn. discriminate.
Qed.

(** ** Witnesses *)

Definition dark_page : theme :=
  {| dark := true; icon := IconSun; storage := {[ "theme" := "dark" ]} |}.

Lemma theme_toggle_twice_witness :
  theme_consistent dark_page /\
  themeToggle_click (themeToggle_click dark_page) = dark_page.
Proof.
  assert (theme_consistent dark_page) as H
    by (split; [reflexivity|apply lookup_singleton_eq]).
  split; [exact H|exact (proj1 (theme_toggle_twice dark_page H))].
Defined.

Lemma theme_toggle_twice_fresh_witness :
  (∅ : gmap string string) !! "theme" = None /\
  storage (themeToggle_click (themeToggle_click (fresh_page ∅))) !! "theme" = Some "light".
Proof.
  assert ((∅ : gmap string string) !! "theme" = None) as H by apply lookup_empty.
  split; [exact H|exact (proj1 (proj2 (theme_toggle_twice_fresh ∅ H)))].
Defined.

End Theme.
