(* ===== verification/Menu.v ===== *)
(** * Menu: the mobile navigation overlay (lines 45-61 and 70-74)

    Opening (lines 46-49) adds [active] to the overlay and locks the page
    scroll ([body.style.overflow = 'hidden']); the close button (lines
    51-54), a click on the overlay backdrop itself (lines 56-61, the
    [e.target === mobileOverlay] guard) and a successful navigation link
    (lines 71-74, only when the overlay is open) remove it and set the
    overflow to ['auto'].  [OverflowUnset] is the HTML's initial style. *)

From S2P Require Import Prelude.
Open Scope string_scope.
Open Scope list_scope.
Open Scope news_scope.

Module Menu.

Inductive overflow := OverflowUnset | OverflowHidden | OverflowAuto.

#[export] Instance overflow_eq_dec : EqDecision overflow.
Proof. solve_decision. Defined.

Record menu := {
  overlay_active : bool;         (** [mobileOverlay.classList.contains('active')] *)
  body_overflow : overflow       (** [document.body.style.overflow] *)
}.

Definition mobileMenu_click (m : menu) : menu :=
  {| overlay_active := true; body_overflow := OverflowHidden |}.

Definition closeMenu_click (m : menu) : menu :=
  {| overlay_active := false; body_overflow := OverflowAuto |}.

(** [target_is_overlay] is [e.target === mobileOverlay]: a click on the
    backdrop rather than on a child of the overlay. *)
Definition mobileOverlay_click (target_is_overlay : bool) (m : menu) : menu :=
  if target_is_overlay then {| overlay_active := false; body_overflow := OverflowAuto |} else m.

(** Lines 71-74, run after a navigation that did not throw. *)
Definition close_if_open (m : menu) : menu :=
  if overlay_active m then {| overlay_active := false; body_overflow := OverflowAuto |} else m.

(** The page scroll is locked exactly while the overlay is open. *)
Definition menu_ok (m : menu) : Prop :=
  overlay_active m = true <-> body_overflow m = OverflowHidden.

Lemma menu_ops_preserve m t :
  menu_ok m ->
  menu_ok (mobileMenu_click m) /\ menu_ok (closeMenu_click m) /\
  menu_ok (mobileOverlay_click t m) /\ menu_ok (close_if_open m).
Proof.
  unfold menu_ok, mobileOverlay_click, close_if_open. intros Hm.
  destruct t, (overlay_active m) eqn:Ha; simpl; split_and!; try done; rewrite ?Ha; done.
Qed.

(** C26: every menu operation keeps the scroll lock in step with the
    overlay (locked exactly while it is open), the close button, a
    backdrop click and [close_if_open] always leave the overlay closed,
    and a click inside the overlay's content changes nothing. *)
Theorem menu_ops_ok (m : menu) (target_is_overlay : bool) :
  menu_ok m ->
  menu_ok (mobileMenu_click m) /\ menu_ok (closeMenu_click m) /\
  menu_ok (mobileOverlay_click target_is_overlay m) /\ menu_ok (close_if_open m) /\
  overlay_active (closeMenu_click m) = false /\ overlay_active (close_if_open m) = false /\
  (target_is_overlay = true -> overlay_active (mobileOverlay_click target_is_overlay m) = false) /\
  (target_is_overlay = false -> mobileOverlay_click target_is_overlay m = m).
Proof.
  intros Hm. destruct (menu_ops_preserve m target_is_overlay Hm) as (H1 & H2 & H3 & H4).
  unfold mobileOverlay_click, close_if_open in *.
  destruct target_is_overlay, (overlay_active m) eqn:Ha; simpl; split_and!; done.
Qed.

Lemma menu_ops_ok_witness :
  menu_ok {| overlay_active := false; body_overflow := OverflowUnset |} /\
  menu_ok (mobileOverlay_click true {| overlay_active := false; body_overflow := OverflowUnset |}).
Proof.
  assert (menu_ok {| overlay_active := false; body_overflow := OverflowUnset |}) as H
    by (split; discriminate).
  split; [exact H|exact (proj1 (proj2 (proj2 (menu_ops_ok _ true H))))].
Defined.

End Menu.
