(* ===== verification/Contact.v ===== *)
(** * Contact: the contact form stub (lines 148-164)

    The submit listener prevents the navigation, reads the four fields,
    logs them with [console.log('Form submitted:', {...})], shows an
    [alert] and calls [contactForm.reset()], which restores every field to
    its default value (the HTML's [value] attribute, empty when absent).
    Nothing is sent anywhere. *)

From S2P Require Import Prelude Dom.
Open Scope string_scope.
Open Scope list_scope.
Open Scope news_scope.

Module Contact.

Record fields := { name : string; email : string; subject : string; message : string }.

Record form := { values : fields; defaults : fields }.

Definition thank_you : string := "Thank you for your message! We will get back to you soon.".

Definition contactForm_submit (f : form) : form * list output :=
  let v := values f in
  ({| values := defaults f; defaults := defaults f |},
   [ConsoleLog "Form submitted:"
      [("name", name v); ("email", email v); ("subject", subject v); ("message", message v)];
    Alert thank_you]).

(** Submitting the form logs exactly the four values it held, in the
    order name, email, subject, message, then shows the acknowledgement,
    and leaves every field at its default value; a second submission logs
    the defaults. *)
Theorem contact_submit_spec (f : form) :
  let '(f', out) := contactForm_submit f in
  out = [ConsoleLog "Form submitted:"
           [("name", name (values f)); ("email", email (values f));
            ("subject", subject (values f)); ("message", message (values f))];
         Alert thank_you] /\
  values f' = defaults f /\ defaults f' = defaults f /\
  (contactForm_submit f').2 =
    [ConsoleLog "Form submitted:"
       [("name", name (defaults f)); ("email", email (defaults f));
        ("subject", subject (defaults f)); ("message", message (defaults f))];
     Alert thank_you].
Proof. simpl. split_and!; reflexivity. Qed.

End Contact.
