(* ===== verification/App.v ===== *)
(** * App: the whole page as one event-driven state machine

    The state of the page is the record [state]: the DOM parts each
    component owns, the four globals of lines 21-24 ([currentPage],
    [currentCategory], [currentSlide] inside [slider_st], [articles] inside
    [feed_st]), the search box, the form and the outputs emitted so far.
    [step] runs the listener an [event] triggers, composed as the script
    composes it: a navigation link runs [navigateToPage] and then closes
    the menu (lines 65-75), [navigateToPage] calls [fetchNews] for the home
    page (lines 90-92), a category button selects itself and calls
    [fetchNews] (lines 97-102), the retry button calls [fetchNews] (line
    302), the timeout awaited by a suspended [fetchNews] resumes it.  An
    exception thrown by a listener is reported as [Uncaught] with the
    updates made before it kept.  [step] returns [None] for an event that
    cannot happen in the state (no such link or button, no suspended
    [fetchNews]).  [init] is the script's top level: the theme restore
    (lines 39-43) and the final [fetchNews()] (line 305), from the page
    [html] describes.  [reachable] is the set of states of every run.

    The part of the page that resumes a load is a Section over the
    provider ([Context `{ArticleSource}]): [reachable] runs the script's
    [mock_source] at every step, while [reachable_net] lets every step
    run with any provider, so that each load may resolve or reject on its
    own, as a remote [fetch] does.  The invariants that do not depend on
    the feed's contents (grid shape, indicators, category, page, slider,
    theme, menu) are proved over [reachable_net]; those about the mock's
    articles over [reachable]. *)

From S2P Require Import Prelude Dom JsString Articles Render Search Loader Navigation Slider Theme Menu Contact.
Open Scope string_scope.
Open Scope list_scope.
Open Scope news_scope.

Module App.
Import JsString Articles Render Search Loader Navigation Slider Theme Menu Contact.

Record state := {
  theme_st : theme;
  menu_st : menu;
  navLinks : list (option string);      (** [data-page] of each [.nav-links a, .mobile-nav a] *)
  pages : list page_el;                 (** the [.page] containers *)
  currentPage : option string;
  scroll : Z * Z;                       (** [window] scroll position *)
  categoryBtns : list cat_button;
  currentCategory : option string;
  feed_st : feed;
  searchValue : string;                 (** [searchInput.value] *)
  slider_st : slider;
  form_st : form;
  outputs : list output                 (** emitted so far, oldest first *)
}.

(** ** Field updates *)

Definition set_feed (f : feed) (st : state) : state :=
  {| theme_st := theme_st st; menu_st := menu_st st; navLinks := navLinks st; pages := pages st;
     currentPage := currentPage st; scroll := scroll st; categoryBtns := categoryBtns st;
     currentCategory := currentCategory st; feed_st := f; searchValue := searchValue st;
     slider_st := slider_st st; form_st := form_st st; outputs := outputs st |}.

Definition set_view (ps : list page_el) (cp : option string) (sc : Z * Z) (st : state) : state :=
  {| theme_st := theme_st st; menu_st := menu_st st; navLinks := navLinks st; pages := ps;
     currentPage := cp; scroll := sc; categoryBtns := categoryBtns st;
     currentCategory := currentCategory st; feed_st := feed_st st; searchValue := searchValue st;
     slider_st := slider_st st; form_st := form_st st; outputs := outputs st |}.

Definition set_category (btns : list cat_button) (cur : option string) (st : state) : state :=
  {| theme_st := theme_st st; menu_st := menu_st st; navLinks := navLinks st; pages := pages st;
     currentPage := currentPage st; scroll := scroll st; categoryBtns := btns;
     currentCategory := cur; feed_st := feed_st st; searchValue := searchValue st;
     slider_st := slider_st st; form_st := form_st st; outputs := outputs st |}.

Definition set_ui (t : theme) (m : menu) (v : string) (s : slider) (fm : form) (st : state) : state :=
  {| theme_st := t; menu_st := m; navLinks := navLinks st; pages := pages st;
     currentPage := currentPage st; scroll := scroll st; categoryBtns := categoryBtns st;
     currentCategory := currentCategory st; feed_st := feed_st st; searchValue := v;
     slider_st := s; form_st := fm; outputs := outputs st |}.

Definition emit (out : list output) (st : state) : state :=
  {| theme_st := theme_st st; menu_st := menu_st st; navLinks := navLinks st; pages := pages st;
     currentPage := currentPage st; scroll := scroll st; categoryBtns := categoryBtns st;
     currentCategory := currentCategory st; feed_st := feed_st st; searchValue := searchValue st;
     slider_st := slider_st st; form_st := form_st st; outputs := outputs st ++ out |}.

Definition set_menu (m : menu) (st : state) : state :=
  set_ui (theme_st st) m (searchValue st) (slider_st st) (form_st st) st.
Definition set_slider (s : slider) (st : state) : state :=
  set_ui (theme_st st) (menu_st st) (searchValue st) s (form_st st) st.

(** The report of an exception that escaped a listener. *)
Definition report (err : option js_error) : list output :=
  match err with Some e => [Uncaught e] | None => [] end.

(** ** The functions of the script *)

(** [fetchNews()] called from a listener: its synchronous prefix runs now. *)
Definition fetchNews (st : state) : state := set_feed (fetch_start (feed_st st)) st.

(** Lines 78-93. *)
Definition navigateToPage (page : option string) (st : state) : state * option js_error :=
  let '(ps, err) := show_page page (pages st) in
  match err with
  | Some e => (set_view ps (currentPage st) (scroll st) st, Some e)
  | None =>
      let st' := set_view ps page (0, 0)%Z st in
      (if page ===? "home" then fetchNews st' else st', None)
  end.

(** Lines 65-75 for link [i]. *)
Definition navLink_click (i : nat) (st : state) : option state :=
  match navLinks st !! i with
  | None => None
  | Some page =>
      let '(st', err) := navigateToPage page st in
      match err with
      | Some e => Some (emit [Uncaught e] st')
      | None => Some (set_menu (close_if_open (menu_st st')) st')
      end
  end.

(** Lines 97-102 for button [i]. *)
Definition category_click (i : nat) (st : state) : option state :=
  match select_button i (categoryBtns st) with
  | None => None
  | Some (btns, cur) => Some (fetchNews (set_category btns cur st))
  end.

(** Lines 106-120: a search replaces the grid, or does nothing. *)
Definition apply_search (res : option (list grid_node)) (st : state) : state :=
  match res with
  | None => st
  | Some g =>
      let f := feed_st st in
      set_feed {| grid := g; loading := loading f; error := error f;
                  articles := articles f; inflight := inflight f |} st
  end.

(** Turn [step st e = Some st'] for a handler that always runs into the
    equation of [st']. *)
Ltac step_inj Hs :=
  simpl in Hs;
  first [ injection Hs as <- | destruct (contactForm_submit _); injection Hs as <- ].

(** ** The page over its article provider

    From here to [End Page] the page is a function of the provider
    [fetchNews] awaits: the script's is [mock_source]; any other instance
    answers with its own articles or rejects. *)

Section Page.
Context `{ArticleSource}.

(** The timeout awaited by a suspended [fetchNews] fires. *)
Definition fetch_timeout (st : state) : option state :=
  if decide (0 < inflight (feed_st st)) then
    let '(f, out) := fetch_resume (currentCategory st) (feed_st st) in
    Some (emit out (set_feed f st))
  else None.

(** Line 302: [retryBtn.addEventListener('click', fetchNews)]. *)
Definition retryBtn_click (st : state) : state := fetchNews st.

Definition slider_event (r : slider * option js_error) (st : state) : state :=
  emit (report r.2) (set_slider r.1 st).

Inductive event :=
| ThemeClick
| MobileMenuClick
| CloseMenuClick
| OverlayClick (target_is_overlay : bool)
| NavLinkClick (i : nat)
| CategoryClick (i : nat)
| SearchInput (v : string)
| SearchClick
| SearchKeypress (key : string)
| PrevClick
| NextClick
| IntervalTick
| FetchTimeout
| RetryClick
| FormInput (v : fields)
| FormSubmit
| UserScroll (x y : Z).

Definition step (st : state) (e : event) : option state :=
  match e with
  | ThemeClick =>
      Some (set_ui (themeToggle_click (theme_st st)) (menu_st st) (searchValue st)
                   (slider_st st) (form_st st) st)
  | MobileMenuClick => Some (set_menu (mobileMenu_click (menu_st st)) st)
  | CloseMenuClick => Some (set_menu (closeMenu_click (menu_st st)) st)
  | OverlayClick t => Some (set_menu (mobileOverlay_click t (menu_st st)) st)
  | NavLinkClick i => navLink_click i st
  | CategoryClick i => category_click i st
  | SearchInput v =>
      Some (set_ui (theme_st st) (menu_st st) v (slider_st st) (form_st st) st)
  | SearchClick => Some (apply_search (on_search_click (searchValue st) (articles (feed_st st))) st)
  | SearchKeypress k =>
      Some (apply_search (on_search_keypress k (searchValue st) (articles (feed_st st))) st)
  | PrevClick => Some (slider_event (prevSlide_click (slider_st st)) st)
  | NextClick => Some (slider_event (nextSlide_click (slider_st st)) st)
  | IntervalTick => Some (slider_event (autoAdvance (slider_st st)) st)
  | FetchTimeout => fetch_timeout st
  | RetryClick => Some (retryBtn_click st)
  | FormInput v =>
      Some (set_ui (theme_st st) (menu_st st) (searchValue st) (slider_st st)
                   {| values := v; defaults := defaults (form_st st) |} st)
  | FormSubmit =>
      let '(fm, out) := contactForm_submit (form_st st) in
      Some (emit out (set_ui (theme_st st) (menu_st st) (searchValue st) (slider_st st) fm st))
  | UserScroll x y => Some (set_view (pages st) (currentPage st) (x, y) st)
  end.

(** Runs a sequence of events; [None] if one of them cannot happen. *)
Fixpoint run (st : state) (es : list event) : option state :=
  match es with
  | [] => Some st
  | e :: es' => match step st e with Some st' => run st' es' | None => None end
  end.

(** ** Start-up *)

(** The page as served: what the script finds in the DOM and the store. *)
Record html := {
  html_body_dark : bool;
  html_store : gmap string string;
  html_links : list (option string);
  html_pages : list page_el;
  html_buttons : list cat_button;
  html_slides : list bool;
  html_form_defaults : fields
}.

(** Lines 20-43: the globals' initial values and the saved theme, on the
    page as served. *)
Definition init_page (h : html) : state :=
    {| theme_st := load_saved_theme {| dark := html_body_dark h; icon := IconFromHtml;
                                       storage := html_store h |};
       menu_st := {| overlay_active := false; body_overflow := OverflowUnset |};
       navLinks := html_links h; pages := html_pages h;
       currentPage := Some "home"; scroll := (0, 0)%Z;
       categoryBtns := html_buttons h; currentCategory := Some "general";
       feed_st := {| grid := []; loading := DisplayUnset; error := DisplayUnset;
                     articles := []; inflight := 0 |};
       searchValue := "";
       slider_st := {| heroSlides := html_slides h; currentSlide := 0 |};
       form_st := {| values := html_form_defaults h; defaults := html_form_defaults h |};
       outputs := [] |}.

(** Line 305: the script ends by calling [fetchNews()]. *)
Definition init (h : html) : state := fetchNews (init_page h).

Inductive reachable (h : html) : state -> Prop :=
| reach_init : reachable h (init h)
| reach_step st e st' : reachable h st -> step st e = Some st' -> reachable h st'.

(** ** Invariants of the page *)

(** Exactly one category button is selected and it names the current
    category. *)
Definition cat_ok (st : state) : Prop :=
  exists i b, categoryBtns st !! i = Some b /\ active_indices (categoryBtns st) = [i] /\
              btn_category b = currentCategory st.

(** The loader's state: the indicator is shown only while a load is in
    flight, the error panel stays hidden (the mock provider never rejects),
    and once no load is in flight the stored articles are the current
    category's selection of the feed and the grid shows them or a search
    over them. *)
Definition feed_ok_f (cur : option string) (f : feed) : Prop :=
  (loading f = DisplayFlex -> 0 < inflight f) /\ error f = DisplayNone /\
  (inflight f = 0 ->
     articles f = select_category cur mockNews /\ loading f = DisplayNone /\
     (grid f = displayNews (articles f) \/ exists q, grid f = searchNews (articles f) q)).

Definition feed_ok (st : state) : Prop := feed_ok_f (currentCategory st) (feed_st st).

(** Exactly one page container is visible and it is the current page's;
    the containers and links are those of the HTML. *)
Definition page_ok (h : html) (st : state) : Prop :=
  navLinks st = html_links h /\ map page_id (pages st) = map page_id (html_pages h) /\
  exists i p, pages st !! i = Some p /\ active_indices (pages st) = [i] /\
              page_id p = page_dom_id (currentPage st).

(** What the HTML page must provide for the invariants to hold at start-up. *)
Definition html_buttons_ok (h : html) : Prop :=
  exists i b, html_buttons h !! i = Some b /\ active_indices (html_buttons h) = [i] /\
              btn_category b = Some "general".

Definition html_pages_ok (h : html) : Prop :=
  (exists i p, html_pages h !! i = Some p /\ active_indices (html_pages h) = [i] /\
               page_id p = "home-page") /\
  Forall (fun link => exists p, In p (html_pages h) /\ page_id p = page_dom_id link) (html_links h).

Definition html_slides_ok (h : html) : Prop :=
  slider_ok {| heroSlides := html_slides h; currentSlide := 0 |}.

Section Induction.
Context (h : html) (P : state -> Prop).
Hypothesis P_init : P (init h).
Hypothesis P_step : forall st e st', reachable h st -> P st -> step st e = Some st' -> P st'.

Lemma reachable_ind_inv st : reachable h st -> P st.
Proof. induction 1; eauto. Qed.
End Induction.

Lemma run_reachable `{ArticleSource} h st es st' :
  reachable h st -> run st es = Some st' -> reachable h st'.
Proof.
  revert st. induction es as [|e es IH]; intros st Hr Hrun; simpl in Hrun; [by injection Hrun as <-|].
  destruct (step st e) as [st1|] eqn:Hs; [|done]. eapply IH; [|exact Hrun]. by eapply reach_step.
Qed.

(** ** Frame lemmas: what each handler leaves alone *)

Lemma fetchNews_fields st :
  feed_st (fetchNews st) = fetch_start (feed_st st) /\
  currentCategory (fetchNews st) = currentCategory st /\ categoryBtns (fetchNews st) = categoryBtns st /\
  pages (fetchNews st) = pages st /\ currentPage (fetchNews st) = currentPage st /\
  navLinks (fetchNews st) = navLinks st /\ slider_st (fetchNews st) = slider_st st.
Proof. done. Qed.

Lemma navigateToPage_fields page st st' err :
  navigateToPage page st = (st', err) ->
  (feed_st st' = feed_st st \/ feed_st st' = fetch_start (feed_st st)) /\
  currentCategory st' = currentCategory st /\ categoryBtns st' = categoryBtns st /\
  navLinks st' = navLinks st /\ slider_st st' = slider_st st /\
  pages st' = (show_page page (pages st)).1 /\
  (err = None -> currentPage st' = page) /\ err = (show_page page (pages st)).2.
Proof.
  unfold navigateToPage. destruct (show_page page (pages st)) as [ps [e|]].
  - intros [= <- <-]. simpl. split_and!; auto; discriminate.
  - destruct (page ===? "home"); intros [= <- <-]; simpl; split_and!; auto.
Qed.

Lemma navLink_click_fields i st st' :
  navLink_click i st = Some st' ->
  exists page, navLinks st !! i = Some page /\
  (feed_st st' = feed_st st \/ feed_st st' = fetch_start (feed_st st)) /\
  currentCategory st' = currentCategory st /\ categoryBtns st' = categoryBtns st /\
  navLinks st' = navLinks st /\ slider_st st' = slider_st st /\
  pages st' = (show_page page (pages st)).1 /\
  ((show_page page (pages st)).2 = None -> currentPage st' = page).
Proof.
  unfold navLink_click. destruct (navLinks st !! i) as [page|] eqn:Hl; [|done].
  destruct (navigateToPage page st) as [st1 err] eqn:Hn.
  apply navigateToPage_fields in Hn as (Hf & Hc & Hb & Hl' & Hs & Hp & Hcp & ->).
  destruct (show_page page (pages st)).2 as [e|] eqn:E; intros Heq; injection Heq as <-;
    exists page; simpl; split_and!; auto; congruence.
Qed.

Lemma category_click_fields i st st' :
  category_click i st = Some st' ->
  exists btns cur, select_button i (categoryBtns st) = Some (btns, cur) /\
  feed_st st' = fetch_start (feed_st st) /\ categoryBtns st' = btns /\ currentCategory st' = cur /\
  pages st' = pages st /\ currentPage st' = currentPage st /\ navLinks st' = navLinks st /\
  slider_st st' = slider_st st.
Proof.
  unfold category_click. destruct (select_button i (categoryBtns st)) as [[btns cur]|]; [|done].
  intros [= <-]. by exists btns, cur.
Qed.

Lemma apply_search_fields res st :
  articles (feed_st (apply_search res st)) = articles (feed_st st) /\
  inflight (feed_st (apply_search res st)) = inflight (feed_st st) /\
  loading (feed_st (apply_search res st)) = loading (feed_st st) /\
  error (feed_st (apply_search res st)) = error (feed_st st) /\
  currentCategory (apply_search res st) = currentCategory st /\
  categoryBtns (apply_search res st) = categoryBtns st /\
  pages (apply_search res st) = pages st /\ currentPage (apply_search res st) = currentPage st /\
  navLinks (apply_search res st) = navLinks st /\ slider_st (apply_search res st) = slider_st st.
Proof. destruct res as [g|]; simpl; split_and!; eauto. Qed.

Lemma fetch_timeout_fields st st' :
  fetch_timeout st = Some st' ->
  0 < inflight (feed_st st) /\ feed_st st' = (fetch_resume (currentCategory st) (feed_st st)).1 /\
  currentCategory st' = currentCategory st /\ categoryBtns st' = categoryBtns st /\
  pages st' = pages st /\ currentPage st' = currentPage st /\ navLinks st' = navLinks st /\
  slider_st st' = slider_st st.
Proof.
  unfold fetch_timeout. case_decide as Hi; [|done].
  destruct (fetch_resume _ _) as [f out] eqn:Hr. intros [= <-]. simpl. done.
Qed.

(** Every event other than navigation, category, search, timeout and
    retry leaves the loader, the category, the pages and the links alone. *)
Lemma step_frame st e st' :
  step st e = Some st' ->
  (forall i, e <> NavLinkClick i) -> (forall i, e <> CategoryClick i) ->
  e <> SearchClick -> (forall k, e <> SearchKeypress k) -> e <> FetchTimeout -> e <> RetryClick ->
  feed_st st' = feed_st st /\ currentCategory st' = currentCategory st /\
  categoryBtns st' = categoryBtns st /\ pages st' = pages st /\
  currentPage st' = currentPage st /\ navLinks st' = navLinks st.
Proof.
  intros Hs Hn Hc Hsc Hk Ht Hr.
  destruct e; try (exfalso; naive_solver); simpl in Hs;
    [..|destruct (contactForm_submit (form_st st))|]; injection Hs as <-; done.
Qed.

Lemma step_cat_frame st e st' :
  step st e = Some st' -> (forall i, e <> CategoryClick i) ->
  categoryBtns st' = categoryBtns st /\ currentCategory st' = currentCategory st.
Proof.
  intros Hs Hc. destruct e; try (by exfalso; naive_solver);
  first
    [ by apply navLink_click_fields in Hs as (? & ? & ? & ? & ? & _)
    | by apply fetch_timeout_fields in Hs as (? & ? & ? & ? & _)
    | by step_inj Hs; split; apply apply_search_fields
    | by step_inj Hs ].
Qed.

Lemma step_slider_frame st e st' :
  step st e = Some st' -> e <> PrevClick -> e <> NextClick -> e <> IntervalTick ->
  slider_st st' = slider_st st.
Proof.
  intros Hs Hp Hn Ht. destruct e; try done;
  first
    [ by apply navLink_click_fields in Hs as (? & ? & ? & ? & ? & ? & ? & _)
    | by apply category_click_fields in Hs as (? & ? & ? & ? & ? & ? & ? & ? & ? & ?)
    | by apply fetch_timeout_fields in Hs as (? & ? & ? & ? & ? & ? & ? & ?)
    | by step_inj Hs; apply apply_search_fields
    | by step_inj Hs ].
Qed.

Lemma step_page_frame st e st' :
  step st e = Some st' -> (forall i, e <> NavLinkClick i) ->
  pages st' = pages st /\ currentPage st' = currentPage st /\ navLinks st' = navLinks st.
Proof.
  intros Hs Hn. destruct e; try (by exfalso; naive_solver);
  first
    [ by apply category_click_fields in Hs as (? & ? & ? & ? & ? & ? & ? & ? & ? & ?)
    | by apply fetch_timeout_fields in Hs as (? & ? & ? & ? & ? & ? & ? & ?)
    | by step_inj Hs; split_and!; apply apply_search_fields
    | by step_inj Hs ].
Qed.

Lemma navLink_click_ui i st st' :
  navLink_click i st = Some st' ->
  theme_st st' = theme_st st /\
  (menu_st st' = menu_st st \/ menu_st st' = close_if_open (menu_st st)).
Proof.
  unfold navLink_click, navigateToPage. destruct (navLinks st !! i); [|done].
  destruct (show_page _ _) as [ps [e|]]; [intros [= <-]; simpl; auto|].
  destruct (_ ===? "home"); intros [= <-]; simpl; auto.
Qed.

Lemma other_ui st e st' :
  step st e = Some st' -> (forall i, e <> NavLinkClick i) ->
  e <> MobileMenuClick -> e <> CloseMenuClick -> (forall t, e <> OverlayClick t) ->
  e <> ThemeClick -> theme_st st' = theme_st st /\ menu_st st' = menu_st st.
Proof.
  intros Hs Hn Hm Hc Ho Ht. destruct e; try (by exfalso; naive_solver); simpl in Hs.
  - unfold category_click in Hs. destruct (select_button _ _) as [[]|]; [|done].
    by injection Hs as <-.
  - by injection Hs as <-.
  - injection Hs as <-. by destruct (on_search_click _ _).
  - injection Hs as <-. by destruct (on_search_keypress _ _ _).
  - by injection Hs as <-.
  - by injection Hs as <-.
  - by injection Hs as <-.
  - unfold fetch_timeout in Hs. case_decide; [|done].
    destruct (fetch_resume _ _). by injection Hs as <-.
  - by injection Hs as <-.
  - by injection Hs as <-.
  - by injection Hs as <-.
  - by injection Hs as <-.
Qed.

End Page.

(** ** The page over the network

    A remote provider does not answer the same way every time: each step
    of [reachable_net] may run with any provider, so each resumed load may
    resolve or reject independently of the others.  The script's own runs
    ([reachable], with [mock_source] at every step) are among them. *)

Inductive reachable_net (h : html) : state -> Prop :=
| net_init : reachable_net h (init h)
| net_step (src : ArticleSource) st e st' :
    reachable_net h st -> @step src st e = Some st' -> reachable_net h st'.

Section NetInduction.
Context (h : html) (P : state -> Prop).
Hypothesis P_init : P (init h).
Hypothesis P_step : forall (src : ArticleSource) st e st',
  reachable_net h st -> P st -> @step src st e = Some st' -> P st'.

Lemma reachable_net_ind_inv st : reachable_net h st -> P st.
Proof. induction 1; eauto. Qed.
End NetInduction.

Lemma reachable_net_of_mock h st : reachable h st -> reachable_net h st.
Proof. induction 1; [constructor|]. eapply net_step; eauto. Qed.

(** The provider that rejects every request, as a failing [fetch] does. *)
Definition rejecting_source : ArticleSource := {| fetch_articles := fun _ => None |}.

(** [n] timeouts in a row from a state with [n] suspended loads. *)
Lemma run_timeouts n st :
  inflight (feed_st st) = n ->
  exists st', run st (repeat FetchTimeout n) = Some st' /\
    inflight (feed_st st') = 0 /\ currentCategory st' = currentCategory st /\
    (0 < n -> loading (feed_st st') = DisplayNone /\
              articles (feed_st st') = select_category (currentCategory st) mockNews /\
              grid (feed_st st') = displayNews (articles (feed_st st'))).
Proof.
  revert st. induction n as [|n IH]; intros st Hn.
  - exists st. split_and!; [done|done|done|lia].
  - simpl. unfold fetch_timeout at 1. rewrite decide_True by lia.
    rewrite (fetch_resume_ok (currentCategory st) (feed_st st) mockNews) by reflexivity.
    destruct (IH (emit [] (set_feed
        {| grid := displayNews (select_category (currentCategory st) mockNews);
           loading := DisplayNone; error := error (feed_st st);
           articles := select_category (currentCategory st) mockNews;
           inflight := pred (inflight (feed_st st)) |} st))) as (st' & Hrun & H0 & Hc & Hset);
      [simpl; lia|].
    exists st'. rewrite Hrun. simpl in Hc. split_and!; [done|done|done|].
    intros _. destruct n as [|n].
    + simpl in Hrun. injection Hrun as <-. done.
    + simpl in Hset. apply Hset. lia.
Qed.

(** ** The shape of the grid *)

Lemma run_search_result v arts g :
  run_search v arts = Some g -> exists q, g = searchNews arts q.
Proof. unfold run_search. destruct (truthy (trim v)); [intros [= <-]; eauto|done]. Qed.

Lemma search_handler_result v arts g :
  on_search_click v arts = Some g \/ (exists k, on_search_keypress k v arts = Some g) ->
  exists q, g = searchNews arts q.
Proof.
  unfold on_search_click, on_search_keypress.
  intros [H|[k H]]; [|destruct (k === "Enter"); [|done]]; by apply run_search_result in H.
Qed.

Lemma grid_wf_apply_search st res :
  grid_wf (grid (feed_st st)) = true ->
  (forall g, res = Some g -> exists q, g = searchNews (articles (feed_st st)) q) ->
  grid_wf (grid (feed_st (apply_search res st))) = true.
Proof.
  intros Hw Hres. destruct res as [g|]; [|done]. simpl.
  destruct (Hres g eq_refl) as [q ->]. apply displayNews_wf.
Qed.

(** C34: whatever each load's provider answers, in every reachable
    state the grid has one of the shapes the
    script writes: empty (a load cleared it), the "no results" placeholder
    alone, or news cards only; a placeholder never sits next to a card. *)
Theorem grid_invariant (h : html) (st : state) :
  reachable_net h st -> grid_wf (grid (feed_st st)) = true.
Proof.
  apply (reachable_net_ind_inv h (fun st => grid_wf (grid (feed_st st)) = true)); [done|].
  intros src st0 e st1 _ Hok Hs. destruct e;
  first
    [ apply navLink_click_fields in Hs as (? & ? & [Hf|Hf] & _); by rewrite Hf
    | apply category_click_fields in Hs as (? & ? & ? & Hf & _); by rewrite Hf
    | apply fetch_timeout_fields in Hs as (_ & Hf & _); rewrite Hf; by apply fetch_resume_grid_wf
    | step_inj Hs; apply grid_wf_apply_search; [done|]; intros g Hg;
        apply (search_handler_result (searchValue st0)); eauto
    | step_inj Hs; done ].
Qed.

(** ** The loader invariant *)

Lemma feed_ok_start cur f : feed_ok_f cur (fetch_start f).
Proof. unfold feed_ok_f; simpl. split_and!; [lia|done|lia]. Qed.

Lemma feed_ok_resume cur f : feed_ok_f cur f -> feed_ok_f cur (fetch_resume cur f).1.
Proof.
  intros (_ & He & _). rewrite (fetch_resume_ok cur f mockNews) by reflexivity.
  unfold feed_ok_f; simpl. split_and!; [discriminate|done|eauto].
Qed.

Lemma feed_ok_search cur st res :
  feed_ok_f cur (feed_st st) ->
  (forall g, res = Some g -> exists q, g = searchNews (articles (feed_st st)) q) ->
  feed_ok_f cur (feed_st (apply_search res st)).
Proof.
  intros (Hl & He & Hs) Hres. destruct res as [g|]; [|done].
  destruct (Hres g eq_refl) as [q ->]. unfold feed_ok_f; simpl.
  split_and!; [done|done|]. intros Hi. destruct (Hs Hi) as (Ha & Hlo & _). eauto.
Qed.

Lemma feed_ok_apply_search st res :
  feed_ok st -> (forall g, res = Some g -> exists q, g = searchNews (articles (feed_st st)) q) ->
  feed_ok (apply_search res st).
Proof.
  intros Hok Hres. pose proof (feed_ok_search _ st res Hok Hres).
  destruct res; [exact H|exact Hok].
Qed.

(** ** Property lemmas used by the invariants *)

Lemma map_page_id_activate_only i (l : list page_el) :
  map page_id (activate_only i l) = map page_id l.
Proof.
  apply list_eq. intros j. rewrite !list_lookup_fmap, lookup_activate_only.
  by destruct (l !! j).
Qed.

Lemma known_page_transfer (l1 l2 : list page_el) x :
  map page_id l1 = map page_id l2 ->
  (exists p, In p l2 /\ page_id p = x) -> exists p, In p l1 /\ page_id p = x.
Proof.
  intros Hm (p & Hp & <-). assert (In (page_id p) (map page_id l1)) as Hin
    by (rewrite Hm; by apply in_map).
  apply in_map_iff in Hin as (q & Hq & Hin). eauto.
Qed.

(** ** Invariants of every run *)

(** The loader invariant is inductive over the script's runs. *)
Lemma reachable_feed_ok (h : html) (st : state) : reachable h st -> feed_ok st.
Proof.
  apply reachable_ind_inv; [apply feed_ok_start|].
  intros st0 e st1 _ Hok Hs. unfold feed_ok in *. destruct e;
  first
    [ apply navLink_click_fields in Hs as (? & ? & [Hf|Hf] & Hc & _);
        rewrite Hf, Hc; [done|apply feed_ok_start]
    | apply category_click_fields in Hs as (? & ? & ? & Hf & _); rewrite Hf; apply feed_ok_start
    | apply fetch_timeout_fields in Hs as (_ & Hf & Hc & _); rewrite Hf, Hc; by apply feed_ok_resume
    | step_inj Hs; apply feed_ok_apply_search; [done|]; intros g Hg;
        apply (search_handler_result (searchValue st0)); eauto
    | step_inj Hs; first [apply feed_ok_start|done] ].
Qed.

(** C1: in every reachable state of the page the loading indicator is
    shown only while a [fetchNews] is suspended, the error panel is
    hidden, and when no [fetchNews] is suspended the global [articles] is
    the current category's selection of the feed ([currentCategory] read
    when the last load resumed, so never a stale category) and the grid
    shows those articles or the result of a search over them. *)
Theorem feed_invariant (h : html) (st : state) : reachable h st -> feed_ok st.
Proof. apply reachable_feed_ok. Qed.

(** C2: if the HTML selects the ['general'] button, then whatever the
    providers answer, in every reachable state exactly one category button is selected and its
    [data-category] is [currentCategory]. *)
Theorem category_invariant (h : html) (st : state) :
  html_buttons_ok h -> reachable_net h st -> cat_ok st.
Proof.
  intros Hh. apply reachable_net_ind_inv; [exact Hh|].
  intros src st0 e st1 _ Hok Hs.
  assert ({i | e = CategoryClick i} + {forall i, e <> CategoryClick i}) as [[i ->]|Hn]
    by (destruct e; first [left; eexists; reflexivity|right; discriminate]).
  - unfold cat_ok. apply category_click_fields in Hs as (btns & cur & Hsel & _ & -> & -> & _).
    apply select_button_Some in Hsel as (b & Hb & -> & -> & Hi).
    exists i, (set_active true b). split_and!; [by apply lookup_activate_only_self| |done].
    by apply active_indices_activate_only.
  - unfold cat_ok in *. destruct (step_cat_frame st0 e st1 Hs) as [-> ->]; done.
Qed.

(** C3: if every navigation link of the HTML names an existing page and
    the HTML shows the home page, then whatever the providers answer, in
    every reachable state exactly one
    page container is visible and it is the container of [currentPage]. *)
Theorem page_invariant (h : html) (st : state) :
  html_pages_ok h -> reachable_net h st -> page_ok h st.
Proof.
  intros [Hhome Hlinks]. apply reachable_net_ind_inv.
  - unfold page_ok; simpl. split_and!; [done|done|]. exact Hhome.
  - intros src st0 e st1 _ (Hl & Hm & Hcur) Hs.
    assert ({i | e = NavLinkClick i} + {forall i, e <> NavLinkClick i}) as [[i ->]|Hn]
      by (destruct e; first [left; eexists; reflexivity|right; discriminate]).
    + apply navLink_click_fields in Hs as (page & Hpage & _ & _ & _ & Hl1 & _ & Hp1 & Hcp1).
      assert (exists p, In p (pages st0) /\ page_id p = page_dom_id page) as Hknown.
      { apply (known_page_transfer _ (html_pages h)); [done|].
        rewrite Hl in Hpage. apply list_elem_of_lookup_2 in Hpage.
        rewrite Forall_forall in Hlinks. by apply Hlinks. }
      destruct (getElementById_In _ _ Hknown) as [j Hj].
      pose proof Hj as [[p [Hpj Hid]] _]%getElementById_spec.
      rewrite (show_page_found _ _ _ Hj) in Hp1, Hcp1. simpl in Hp1, Hcp1.
      unfold page_ok. rewrite Hl1, Hp1, (Hcp1 eq_refl), map_page_id_activate_only.
      split_and!; [done|done|]. exists j, (set_active true p).
      split_and!; [by apply lookup_activate_only_self| |done].
      apply active_indices_activate_only. eapply lookup_lt_Some; eauto.
    + unfold page_ok. destruct (step_page_frame st0 e st1 Hs Hn) as (-> & -> & ->). done.
Qed.

(** C12: if the HTML marks the first slide active, the slider's invariant
    (index in range, its slide the only active one) holds in every
    reachable state, whatever the providers answer, and no slider event throws there. *)
Theorem slider_invariant (h : html) (st : state) :
  html_slides_ok h -> reachable_net h st -> slider_ok (slider_st st).
Proof.
  intros Hh. apply (reachable_net_ind_inv h (fun st => slider_ok (slider_st st))); [exact Hh|].
  intros src st0 e st1 _ Hok Hs.
  destruct (prev_ok _ Hok) as [Hp _], (next_ok _ Hok) as [Hn _].
  assert (slider_ok (autoAdvance (slider_st st0)).1) as Ht by exact Hn.
  destruct e; try (rewrite (step_slider_frame st0 _ st1 Hs) by discriminate; exact Hok);
    step_inj Hs; done.
Qed.

(** C28: the theme is either untouched since start-up or consistent: once
    it has been toggled, the icon and the stored preference always agree
    with the body class, whatever the providers answer. *)
Theorem theme_invariant (h : html) (st : state) :
  reachable_net h st ->
  theme_st st = theme_st (init h) \/ theme_consistent (theme_st st).
Proof.
  apply (reachable_net_ind_inv h (fun st => theme_st st = theme_st (init h) \/
                                      theme_consistent (theme_st st))); [by left|].
  intros src st0 e st1 _ Hok Hs. destruct e;
  first
    [ by right; injection Hs as <-; apply themeToggle_consistent
    | by apply navLink_click_ui in Hs as [-> _]
    | by injection Hs as <-
    | by rewrite (proj1 (other_ui st0 _ st1 Hs ltac:(done) ltac:(done) ltac:(done)
                                   ltac:(done) ltac:(done))) ].
Qed.

(** C29: whatever the providers answer, in every reachable state the
    page scroll is locked exactly while the mobile overlay is open. *)
Theorem menu_invariant (h : html) (st : state) :
  reachable_net h st -> menu_ok (menu_st st).
Proof.
  apply (reachable_net_ind_inv h (fun st => menu_ok (menu_st st))); [by split|].
  intros src st0 e st1 _ Hok Hs.
  destruct (menu_ops_preserve (menu_st st0) true Hok) as (H1 & H2 & _ & H4).
  destruct e;
  first
    [ by apply navLink_click_ui in Hs as [_ [->| ->]]
    | by injection Hs as <-
    | by injection Hs as <-; apply menu_ops_preserve
    | by rewrite (proj2 (other_ui st0 _ st1 Hs ltac:(done) ltac:(done) ltac:(done)
                                   ltac:(done) ltac:(done))) ].
Qed.

(** C30: every suspended load completes: from any state with [n > 0]
    suspended [fetchNews] activations, [n] timeouts in a row can all fire,
    and they leave no load in flight, the indicator hidden, and the grid
    showing the current category's selection of the feed. *)
Theorem loads_complete (st : state) :
  0 < inflight (feed_st st) ->
  exists st', run st (repeat FetchTimeout (inflight (feed_st st))) = Some st' /\
    inflight (feed_st st') = 0 /\ loading (feed_st st') = DisplayNone /\
    articles (feed_st st') = select_category (currentCategory st) mockNews /\
    grid (feed_st st') = displayNews (articles (feed_st st')).
Proof.
  intros Hpos. destruct (run_timeouts _ st eq_refl) as (st' & Hrun & H0 & _ & Hset).
  exists st'. destruct (Hset Hpos) as (? & ? & ?). done.
Qed.

(** A card of a grid the renderer wrote is the card of one of the
    articles it was given. *)
Lemma displayNews_card_in arts c :
  In (NewsCard c) (displayNews arts) -> exists a, In a arts /\ c = card_of a.
Proof.
  destruct arts as [|a0 arts]; [intros [[=]|[]]|].
  rewrite displayNews_nonempty by done. intros (a & [= <-] & Ha)%in_map_iff. eauto.
Qed.

(** C35: a search never shows an article of another category: in every
    run of the script, once no load is pending, every card of the grid is
    the card of an article of the current category's selection of the
    feed, whether the grid shows that selection or a search over it. *)
Theorem grid_in_category (h : html) (st : state) (c : card) :
  reachable h st -> inflight (feed_st st) = 0 -> In (NewsCard c) (grid (feed_st st)) ->
  exists a, In a (select_category (currentCategory st) mockNews) /\ c = card_of a.
Proof.
  intros Hr H0 Hc. destruct (reachable_feed_ok h st Hr) as (_ & _ & Hs).
  destruct (Hs H0) as (Ha & _ & [Hg | [q Hg]]); rewrite Hg, Ha in Hc.
  - by apply displayNews_card_in.
  - apply displayNews_card_in in Hc as (a & Hin & ->). exists a. split; [|done].
    by apply filteredNews_In in Hin as [? _].
Qed.

(** C36: following a link to a page that has a container shows it and
    closes the mobile menu: the listener throws nothing, [currentPage]
    becomes the link's page, the window is scrolled to the top, the overlay
    is closed (and the scroll unlocked if it was open), and a load is
    started exactly for the home page. *)
Theorem navLink_click_found (st : state) (i : nat) (page : option string) (p : page_el) :
  navLinks st !! i = Some page -> In p (pages st) -> page_id p = page_dom_id page ->
  exists st', navLink_click i st = Some st' /\
    currentPage st' = page /\ scroll st' = (0, 0)%Z /\
    menu_st st' = close_if_open (menu_st st) /\ overlay_active (menu_st st') = false /\
    feed_st st' = (if page ===? "home" then fetch_start (feed_st st) else feed_st st) /\
    outputs st' = outputs st.
Proof.
  intros Hl Hp Hid. destruct (getElementById_In (page_dom_id page) (pages st)) as [j Hj]; [eauto|].
  unfold navLink_click, navigateToPage. rewrite Hl, (show_page_found _ _ _ Hj). simpl.
  unfold close_if_open. destruct (page ===? "home"); eexists; (split; [reflexivity|]); simpl;
    destruct (overlay_active (menu_st st)) eqn:Ho; simpl; rewrite ?Ho; split_and!; done.
Qed.

(** ** The error path over the network *)

(** The indicators of the loader whatever the provider answers: each
    shows one of the values the script writes, and the loading indicator
    is shown only while a load is suspended and never together with the
    error panel. *)
Definition net_feed_ok (f : feed) : Prop :=
  (loading f = DisplayFlex \/ loading f = DisplayNone) /\
  (error f = DisplayNone \/ error f = DisplayBlock) /\
  (loading f = DisplayFlex -> 0 < inflight f /\ error f = DisplayNone).

Lemma net_feed_ok_start f : net_feed_ok (fetch_start f).
Proof. unfold net_feed_ok; simpl. split_and!; [by left|by left|intros _; split; [lia|done]]. Qed.

Lemma net_feed_ok_apply_search st res :
  net_feed_ok (feed_st st) -> net_feed_ok (feed_st (apply_search res st)).
Proof. by destruct res. Qed.

(** C20: whatever each load's provider answers, in every reachable state
    the loading indicator and the error panel each show a value the script
    writes, the indicator is shown only while a [fetchNews] is suspended,
    and never together with the error panel. *)
Theorem net_feed_invariant (h : html) (st : state) :
  reachable_net h st -> net_feed_ok (feed_st st).
Proof.
  apply (reachable_net_ind_inv h (fun st => net_feed_ok (feed_st st))); [apply net_feed_ok_start|].
  intros src st0 e st1 _ Hok Hs. destruct e;
  first
    [ apply navLink_click_fields in Hs as (? & ? & [Hf|Hf] & _); rewrite Hf; [done|apply net_feed_ok_start]
    | apply category_click_fields in Hs as (? & ? & ? & Hf & _); rewrite Hf; apply net_feed_ok_start
    | apply fetch_timeout_fields in Hs as (_ & Hf & _); rewrite Hf;
        destruct Hok as (_ & He & _); unfold fetch_resume, net_feed_ok;
        destruct (fetch_articles _); simpl; split_and!; auto; discriminate
    | step_inj Hs; by apply net_feed_ok_apply_search
    | step_inj Hs; first [apply net_feed_ok_start|done] ].
Qed.

(** C19: the retry button with no load in flight starts one; when its
    timeout fires the indicator is hidden and, if the provider resolves,
    the error panel is hidden and the current category's selection of its
    articles is stored and shown, and if it rejects, the error is logged,
    the error panel is shown, the grid stays empty and [articles] keeps the
    last loaded feed. *)
Theorem retry_outcome `{ArticleSource} (st : state) :
  inflight (feed_st st) = 0 ->
  exists st', run st [RetryClick; FetchTimeout] = Some st' /\
    loading (feed_st st') = DisplayNone /\ inflight (feed_st st') = 0 /\
    currentCategory st' = currentCategory st /\
    match fetch_articles (currentCategory st) with
    | Some fetched =>
        error (feed_st st') = DisplayNone /\
        articles (feed_st st') = select_category (currentCategory st) fetched /\
        grid (feed_st st') = displayNews (articles (feed_st st')) /\ outputs st' = outputs st
    | None =>
        error (feed_st st') = DisplayBlock /\ grid (feed_st st') = [] /\
        articles (feed_st st') = articles (feed_st st) /\
        outputs st' = outputs st ++ [ConsoleError "Error fetching news:"]
    end.
Proof.
  intros H0. simpl. unfold retryBtn_click, fetch_timeout. rewrite decide_True by (simpl; lia).
  unfold fetch_resume. simpl. destruct (fetch_articles (currentCategory st)); eexists;
    (split; [reflexivity|]); simpl; split_and!; rewrite ?app_nil_r; auto.
Qed.


(** ** Scenarios *)

(** Two searches in a row both filter the loaded [articles], not the grid
    of the first: the second grid depends only on [articles] and the second
    query, and a blank second query leaves the first result. *)
Lemma search_click_step st v :
  step (set_ui (theme_st st) (menu_st st) v (slider_st st) (form_st st) st) SearchClick =
  Some (apply_search (run_search v (articles (feed_st st)))
          (set_ui (theme_st st) (menu_st st) v (slider_st st) (form_st st) st)).
Proof. reflexivity. Qed.

(** C11: searching "q1" and then "q2" filters the loaded [articles] both
    times (never the first search's output) and never changes
    [articles]: after the two searches the grid is the rendering of the
    articles matching the trimmed "q2", or, when "q2" is blank, of those
    matching the trimmed "q1", or the grid before, when both are blank. *)
Theorem search_twice_from_loaded (st : state) (q1 q2 : string) :
  exists st', run st [SearchInput q1; SearchClick; SearchInput q2; SearchClick] = Some st' /\
  articles (feed_st st') = articles (feed_st st) /\
  grid (feed_st st') =
    if truthy (trim q2) then searchNews (articles (feed_st st)) (trim q2)
    else if truthy (trim q1) then searchNews (articles (feed_st st)) (trim q1)
    else grid (feed_st st).
Proof.
  eexists. split; [reflexivity|]. simpl. unfold on_search_click, run_search.
  destruct (truthy (trim q1)), (truthy (trim q2)); simpl; split; reflexivity.
Qed.

(** C18: following a navigation link to the home page discards any
    search result: the grid is emptied and a new load is started; when it
    resumes the grid shows the current category's articles again. *)
Theorem navigate_home_reloads (st st' : state) (i : nat) :
  navLinks st !! i = Some (Some "home") ->
  (exists p, In p (pages st) /\ page_id p = "home-page") ->
  navLink_click i st = Some st' ->
  grid (feed_st st') = [] /\ inflight (feed_st st') = S (inflight (feed_st st)) /\
  currentPage st' = Some "home" /\
  exists st'', fetch_timeout st' = Some st'' /\
    articles (feed_st st'') = select_category (currentCategory st) mockNews /\
    grid (feed_st st'') = displayNews (articles (feed_st st'')).
Proof.
  intros Hl Hp Hs. unfold navLink_click in Hs. rewrite Hl in Hs.
  destruct (getElementById_In "home-page" (pages st) Hp) as [j Hj].
  unfold navigateToPage in Hs. rewrite (show_page_found (Some "home") _ j Hj) in Hs.
  simpl in Hs. injection Hs as <-. simpl. split_and!; [done|done|done|].
  unfold fetch_timeout. simpl. eexists. split; [reflexivity|].
  simpl. split; reflexivity.
Qed.

(** C23: following a link whose page has no container (a missing or
    misspelt [data-page]) throws a [TypeError] that escapes the listener:
    every page container has lost [active] so no page is visible,
    [currentPage] and the scroll position are unchanged, the mobile menu is
    left as it was (open, if it was), and no load is started. *)
Theorem missing_page_blank (st : state) (i : nat) (page : option string) :
  navLinks st !! i = Some page ->
  (forall p, In p (pages st) -> page_id p <> page_dom_id page) ->
  exists st', navLink_click i st = Some st' /\
    active_indices (pages st') = [] /\ currentPage st' = currentPage st /\
    scroll st' = scroll st /\ menu_st st' = menu_st st /\ feed_st st' = feed_st st /\
    outputs st' = outputs st ++ [Uncaught err_null_classList].
Proof.
  intros Hl Hn. unfold navLink_click, navigateToPage. rewrite Hl.
  rewrite show_page_missing by (by apply getElementById_None). simpl.
  eexists. split; [reflexivity|]. simpl. split_and!; try done. apply active_indices_remove_all.
Qed.

(** ** A concrete page *)

Definition demo_html : html :=
  {| html_body_dark := false; html_store := ∅;
     html_links := [Some "home"; Some "about"; Some "contact"];
     html_pages := demo_pages; html_buttons := demo_buttons;
     html_slides := [true; false; false];
     html_form_defaults := {| Contact.name := ""; Contact.email := "";
                              Contact.subject := ""; Contact.message := "" |} |}.

Lemma demo_buttons_ok : html_buttons_ok demo_html.
Proof. exists 0, {| btn_category := Some "general"; btn_active := true |}. done. Qed.

Lemma demo_pages_ok : html_pages_ok demo_html.
Proof.
  split; [exists 0, {| page_id := "home-page"; page_active := true |}; done|].
  repeat constructor; eexists; split;
    [by left|reflexivity|by right; left|reflexivity|by right; right; left|reflexivity].
Qed.

Lemma demo_slides_ok : html_slides_ok demo_html.
Proof. split; [unfold slide_count; simpl; lia|reflexivity]. Qed.

(** ** Runs of the concrete page *)

(** The specification's scenario: on the page with the buttons
    [general, technology, sports, health, entertainment], selecting
    [technology] and letting the pending loads complete stores and shows
    exactly the two technology articles of the mock feed. *)
Theorem technology_scenario :
  exists st, run (init demo_html) [CategoryClick 1; FetchTimeout; FetchTimeout] = Some st /\
    currentCategory st = Some "technology" /\ length (articles (feed_st st)) = 2 /\
    Forall (fun a => category a = "technology") (articles (feed_st st)) /\
    count_cards (grid (feed_st st)) = 2 /\ inflight (feed_st st) = 0.
Proof. eexists. split; [vm_compute; reflexivity|]. vm_compute. split_and!; repeat constructor. Qed.

(** C27: the error panel outlives a later success: [fetchNews] hides it
    only on entry, not when a load resolves, so with two overlapping loads
    (start-up, then retry) of which the first is rejected and the second
    resolves, the six articles are shown under a visible error panel with
    no load left in flight. *)
Theorem stale_error_panel :
  exists st, reachable_net demo_html st /\
    error (feed_st st) = DisplayBlock /\ loading (feed_st st) = DisplayNone /\
    inflight (feed_st st) = 0 /\ count_cards (grid (feed_st st)) = 6.
Proof.
  set (st1 := retryBtn_click (init demo_html)).
  set (st2 := emit [ConsoleError "Error fetching news:"]
                (set_feed (@fetch_resume rejecting_source (currentCategory st1) (feed_st st1)).1 st1)).
  set (st3 := emit [] (set_feed (@fetch_resume mock_source (currentCategory st2) (feed_st st2)).1 st2)).
  exists st3. split; [|vm_compute; split_and!; reflexivity].
  apply (net_step _ mock_source st2 FetchTimeout); [|reflexivity].
  apply (net_step _ rejecting_source st1 FetchTimeout); [|reflexivity].
  apply (net_step _ mock_source (init demo_html) RetryClick); [apply net_init|reflexivity].
Qed.

(** ** Witnesses *)

Definition demo_after_click : state :=
  match step (init demo_html) (CategoryClick 1) with Some st => st | None => init demo_html end.

Lemma demo_after_click_reachable : reachable demo_html demo_after_click.
Proof. apply (reach_step _ (init demo_html) (CategoryClick 1)); [apply reach_init|]. reflexivity. Qed.

Lemma demo_after_click_reachable_net : reachable_net demo_html demo_after_click.
Proof. apply reachable_net_of_mock, demo_after_click_reachable. Qed.

Lemma feed_invariant_witness :
  reachable demo_html demo_after_click /\ feed_ok demo_after_click.
Proof.
  split; [exact demo_after_click_reachable|].
  exact (feed_invariant demo_html _ demo_after_click_reachable).
Defined.

Lemma grid_invariant_witness :
  reachable_net demo_html demo_after_click /\ grid_wf (grid (feed_st demo_after_click)) = true.
Proof.
  split; [exact demo_after_click_reachable_net|].
  exact (grid_invariant demo_html _ demo_after_click_reachable_net).
Defined.

Lemma category_invariant_witness :
  html_buttons_ok demo_html /\ reachable_net demo_html demo_after_click /\ cat_ok demo_after_click.
Proof.
  split_and!; [exact demo_buttons_ok|exact demo_after_click_reachable_net|].
  exact (category_invariant demo_html _ demo_buttons_ok demo_after_click_reachable_net).
Defined.

Lemma page_invariant_witness :
  html_pages_ok demo_html /\ reachable_net demo_html demo_after_click /\
  page_ok demo_html demo_after_click.
Proof.
  split_and!; [exact demo_pages_ok|exact demo_after_click_reachable_net|].
  exact (page_invariant demo_html _ demo_pages_ok demo_after_click_reachable_net).
Defined.

Lemma slider_invariant_witness :
  html_slides_ok demo_html /\ reachable_net demo_html demo_after_click /\
  slider_ok (slider_st demo_after_click).
Proof.
  split_and!; [exact demo_slides_ok|exact demo_after_click_reachable_net|].
  exact (slider_invariant demo_html _ demo_slides_ok demo_after_click_reachable_net).
Defined.

Lemma navigate_home_reloads_witness :
  navLinks (init demo_html) !! 0 = Some (Some "home") /\
  (exists p, In p (pages (init demo_html)) /\ page_id p = "home-page") /\
  exists st', navLink_click 0 (init demo_html) = Some st' /\ grid (feed_st st') = [].
Proof.
  assert (navLinks (init demo_html) !! 0 = Some (Some "home")) as Hl by reflexivity.
  assert (exists p, In p (pages (init demo_html)) /\ page_id p = "home-page") as Hp
    by (eexists; split; [left; reflexivity|reflexivity]).
  split_and!; [exact Hl|exact Hp|].
  eexists. split; [reflexivity|].
  exact (proj1 (navigate_home_reloads (init demo_html) _ 0 Hl Hp eq_refl)).
Defined.

Lemma missing_page_blank_witness :
  navLinks (set_view (pages (init demo_html)) (currentPage (init demo_html)) (0, 0)%Z
              (init demo_html)) !! 0 = Some (Some "home") /\
  (forall p, In p (pages (init demo_html)) -> page_id p <> page_dom_id (Some "blog")) /\
  exists st', navLink_click 0
     {| theme_st := theme_st (init demo_html); menu_st := menu_st (init demo_html);
        navLinks := [Some "blog"]; pages := pages (init demo_html);
        currentPage := currentPage (init demo_html); scroll := scroll (init demo_html);
        categoryBtns := categoryBtns (init demo_html);
        currentCategory := currentCategory (init demo_html); feed_st := feed_st (init demo_html);
        searchValue := ""; slider_st := slider_st (init demo_html);
        form_st := form_st (init demo_html); outputs := [] |} = Some st' /\
     active_indices (pages st') = [].
Proof.
  assert (forall p, In p (pages (init demo_html)) -> page_id p <> page_dom_id (Some "blog")) as Hn
    by (intros p [<-|[<-|[<-|[]]]]; discriminate).
  split_and!; [reflexivity|exact Hn|].
  destruct (missing_page_blank
     {| theme_st := theme_st (init demo_html); menu_st := menu_st (init demo_html);
        navLinks := [Some "blog"]; pages := pages (init demo_html);
        currentPage := currentPage (init demo_html); scroll := scroll (init demo_html);
        categoryBtns := categoryBtns (init demo_html);
        currentCategory := currentCategory (init demo_html); feed_st := feed_st (init demo_html);
        searchValue := ""; slider_st := slider_st (init demo_html);
        form_st := form_st (init demo_html); outputs := [] |} 0 (Some "blog") eq_refl Hn)
    as (st' & Hs & Hact & _).
  exists st'. split; assumption.
Defined.

Lemma theme_invariant_witness :
  reachable_net demo_html demo_after_click /\
  (theme_st demo_after_click = theme_st (init demo_html) \/
   theme_consistent (theme_st demo_after_click)).
Proof.
  split; [exact demo_after_click_reachable_net|].
  exact (theme_invariant demo_html _ demo_after_click_reachable_net).
Defined.

Lemma menu_invariant_witness :
  reachable_net demo_html demo_after_click /\ menu_ok (menu_st demo_after_click).
Proof.
  split; [exact demo_after_click_reachable_net|].
  exact (menu_invariant demo_html _ demo_after_click_reachable_net).
Defined.

Lemma loads_complete_witness :
  0 < inflight (feed_st (init demo_html)) /\
  exists st', run (init demo_html) (repeat FetchTimeout (inflight (feed_st (init demo_html))))
                = Some st' /\ inflight (feed_st st') = 0.
Proof.
  assert (0 < inflight (feed_st (init demo_html))) as H by (simpl; lia).
  split; [exact H|].
  destruct (loads_complete (init demo_html) H) as (st' & Hr & H0 & _).
  exists st'. split; assumption.
Defined.

Lemma net_feed_invariant_witness :
  reachable_net demo_html demo_after_click /\ net_feed_ok (feed_st demo_after_click).
Proof.
  split; [exact demo_after_click_reachable_net|].
  exact (net_feed_invariant demo_html _ demo_after_click_reachable_net).
Defined.

(** The page once its start-up load has resolved. *)
Definition demo_loaded : state :=
  match step (init demo_html) FetchTimeout with Some st => st | None => init demo_html end.

Lemma retry_outcome_witness :
  inflight (feed_st demo_loaded) = 0 /\
  exists st', @run rejecting_source demo_loaded [RetryClick; FetchTimeout] = Some st' /\
    error (feed_st st') = DisplayBlock.
Proof.
  assert (inflight (feed_st demo_loaded) = 0) as H by reflexivity.
  split; [exact H|].
  destruct (@retry_outcome rejecting_source demo_loaded H) as (st' & Hr & _ & _ & _ & Hm).
  exists st'. split; [exact Hr|exact (proj1 Hm)].
Defined.

(** The page once [technology] is selected and both pending loads have
    resolved. *)
Definition demo_tech : state :=
  match run (init demo_html) [CategoryClick 1; FetchTimeout; FetchTimeout] with
  | Some st => st | None => init demo_html
  end.

Lemma demo_tech_reachable : reachable demo_html demo_tech.
Proof. apply (run_reachable demo_html (init demo_html) [CategoryClick 1; FetchTimeout; FetchTimeout]);
  [apply reach_init|vm_compute; reflexivity]. Qed.

Lemma grid_in_category_witness :
  reachable demo_html demo_tech /\ inflight (feed_st demo_tech) = 0 /\
  In (NewsCard (card_of (List.nth 1 mockNews (mk EmptyString EmptyString EmptyString EmptyString EmptyString EmptyString EmptyString)))) (grid (feed_st demo_tech)) /\
  exists a, In a (select_category (currentCategory demo_tech) mockNews) /\
            card_of (List.nth 1 mockNews (mk EmptyString EmptyString EmptyString EmptyString EmptyString EmptyString EmptyString)) = card_of a.
Proof.
  assert (inflight (feed_st demo_tech) = 0) as H0 by (vm_compute; reflexivity).
  assert (In (NewsCard (card_of (List.nth 1 mockNews (mk EmptyString EmptyString EmptyString EmptyString EmptyString EmptyString EmptyString)))) (grid (feed_st demo_tech))) as Hc
    by (vm_compute; left; reflexivity).
  split_and!; [exact demo_tech_reachable|exact H0|exact Hc|].
  exact (grid_in_category demo_html demo_tech _ demo_tech_reachable H0 Hc).
Defined.

Lemma navLink_click_found_witness :
  navLinks (init demo_html) !! 1 = Some (Some "about") /\
  In (List.nth 1 demo_pages {| page_id := "about-page"; page_active := false |}) (pages (init demo_html)) /\
  page_id (List.nth 1 demo_pages {| page_id := "about-page"; page_active := false |}) = page_dom_id (Some "about") /\
  exists st', navLink_click 1 (init demo_html) = Some st' /\ currentPage st' = Some "about".
Proof.
  assert (navLinks (init demo_html) !! 1 = Some (Some "about")) as Hl by reflexivity.
  assert (In (List.nth 1 demo_pages {| page_id := "about-page"; page_active := false |}) (pages (init demo_html))) as Hp by (right; left; reflexivity).
  assert (page_id (List.nth 1 demo_pages {| page_id := "about-page"; page_active := false |}) = page_dom_id (Some "about")) as Hid by reflexivity.
  split_and!; [exact Hl|exact Hp|exact Hid|].
  destruct (navLink_click_found _ 1 _ _ Hl Hp Hid) as (st' & Hs & Hcur & _).
  exists st'. split; assumption.
Defined.

End App.
